(** * Semisizer: the YouTube summarisation pipeline of [Semisizer.py]

    A shallow embedding of the script.  The downloader, the conversion
    subprocess, the speech model, the language model, the clock and the
    user's input are the fields of a [world]; the filesystem, the
    sequence of observable events and the number of clock readings form
    the [state] threaded through a state-and-exception monad.  A Python
    exception (a subclass of [Exception]) is the [Raise] outcome, [None]
    is the [None] of an [option], a float is a binary64 float.  The
    calls of the page framework only show something: they are events
    and do not raise. *)

From Stdlib Require Import String Ascii List ZArith PrimFloat.
From stdpp Require Import gmap strings list.

Set Warnings "-register-all,-clear-no-such-hyp".

(** ** Python values *)

(** An exception object: its class and the text [str(e)] gives. *)
Record exn := Exn { exn_class : string; exn_str : string }.

(** What a call yields: a value, or a raised exception. *)
Inductive outcome (A : Type) :=
| Ok (a : A)
| Raise (e : exn).
Arguments Ok {A} a.
Arguments Raise {A} e.

(** The values a decoded model response is made of. *)
Inductive pyval :=
| PyNone
| PyBool (b : bool)
| PyInt (z : Z)
| PyStr (s : string)
| PyList (l : list pyval)
| PyDict (d : gmap string pyval).

(** [type(v).__name__], as it appears in an AttributeError. *)
Definition py_type_name (v : pyval) : string :=
  match v with
  | PyNone => "NoneType"
  | PyBool _ => "bool"
  | PyInt _ => "int"
  | PyStr _ => "str"
  | PyList _ => "list"
  | PyDict _ => "dict"
  end.

(** [bool(v)]. *)
Definition py_truthy (v : pyval) : bool :=
  match v with
  | PyNone => false
  | PyBool b => b
  | PyInt z => negb (z =? 0)%Z
  | PyStr s => negb (String.eqb s "")
  | PyList l => match l with [] => false | _ :: _ => true end
  | PyDict d => negb (bool_decide (d = ∅))
  end.

(** [bool(s)] for a string: non-empty. *)
Definition str_truthy (s : string) : bool := negb (String.eqb s "").

(** [bool(x)] for a value that is a string or [None]. *)
Definition opt_str_truthy (x : option string) : bool :=
  match x with
  | Some s => str_truthy s
  | None => false
  end.

Definition attribute_error (v : pyval) (attr : string) : exn :=
  Exn "AttributeError"
      ("'" +:+ py_type_name v +:+ "' object has no attribute '" +:+ attr +:+ "'").

(** [v.get(key, dflt)]: defined on dictionaries only. *)
Definition py_get (v : pyval) (key : string) (dflt : pyval) : outcome pyval :=
  match v with
  | PyDict d => Ok (default dflt (d !! key))
  | _ => Raise (attribute_error v "get")
  end.

(** ** Strings *)

Definition bytes (l : list nat) : list ascii := map ascii_of_nat l.

(** The characters [str.isspace] accepts, in their UTF-8 encoding:
    U+0009..U+000D, U+001C..U+0020, U+0085, U+00A0, U+1680,
    U+2000..U+200A, U+2028, U+2029, U+202F, U+205F, U+3000. *)
Definition whitespace : list (list ascii) :=
  map bytes
    [ [9]; [10]; [11]; [12]; [13]; [28]; [29]; [30]; [31]; [32];
      [194; 133]; [194; 160]; [225; 154; 128];
      [226; 128; 128]; [226; 128; 129]; [226; 128; 130]; [226; 128; 131];
      [226; 128; 132]; [226; 128; 133]; [226; 128; 134]; [226; 128; 135];
      [226; 128; 136]; [226; 128; 137]; [226; 128; 138];
      [226; 128; 168]; [226; 128; 169]; [226; 128; 175];
      [226; 129; 159]; [227; 128; 128] ].

(** [drop_prefix p s] is the rest of [s] after its prefix [p]. *)
Fixpoint drop_prefix (p s : list ascii) : option (list ascii) :=
  match p, s with
  | [], _ => Some s
  | a :: p', b :: s' => if Ascii.eqb a b then drop_prefix p' s' else None
  | _ :: _, [] => None
  end.

(** Removes one leading character of [pats], when [s] starts with one. *)
Fixpoint drop_one (pats : list (list ascii)) (s : list ascii)
  : option (list ascii) :=
  match pats with
  | [] => None
  | p :: pats' =>
      match drop_prefix p s with
      | Some s' => Some s'
      | None => drop_one pats' s
      end
  end.

Fixpoint drop_while (pats : list (list ascii)) (fuel : nat) (s : list ascii)
  : list ascii :=
  match fuel with
  | O => s
  | S fuel' =>
      match drop_one pats s with
      | Some s' => drop_while pats fuel' s'
      | None => s
      end
  end.

Definition lstrip_bytes (s : list ascii) : list ascii :=
  drop_while whitespace (length s) s.

Definition rstrip_bytes (s : list ascii) : list ascii :=
  rev (drop_while (map (@rev ascii) whitespace) (length s) (rev s)).

(** [s.strip()]. *)
Definition strip (s : string) : string :=
  string_of_list_ascii
    (rstrip_bytes (lstrip_bytes (list_ascii_of_string s))).

(** [s.endswith(suffix)]. *)
Definition endswith (s suffix : string) : bool :=
  match drop_prefix (rev (list_ascii_of_string suffix))
                    (rev (list_ascii_of_string s)) with
  | Some _ => true
  | None => false
  end.

Definition newline : string := String (ascii_of_nat 10) "".
Definition dquote : string := String (ascii_of_nat 34) "".

(** ** The world outside the script *)

(** One entry of the [messages] argument of [ollama.chat]. *)
Record message := Message { role : string; content : string }.

(** The options handed to [yt_dlp.YoutubeDL]. *)
Record ydl_options := YdlOptions {
  format : string;
  outtmpl_stem : string;   (* 'downloaded_audio.%(ext)s' up to the extension *)
  noplaylist : bool;
  quiet : bool
}.

(** Of the info dictionary only the extension is read, to fill the
    output template. *)
Record info_dict := InfoDict { ext : string }.

(** The result of [subprocess.run(..., capture_output=True, text=True)]. *)
Record completed_process := CompletedProcess {
  returncode : Z;
  stdout : string;
  stderr : string
}.

(** Everything a run does that can be seen from outside, in order. *)
Inductive event :=
| StSetPageConfig (layout : string)
| StMarkdown (body : string)
| StExpander (label : string)
| StWrite (body : string)
| StWriteProcessingTime (elapsed : float)
| StTextInput (label : string)
| StButton (label : string)
| StSuccess (body : string)
| StInfo (body : string)
| StError (body : string)
| StColumns (spec : list nat)
| StVideo (url : string)
| StHeader (body : string)
| TimeTime (reading : float)
| YdlExtractInfo (opts : ydl_options) (url : string)
| SubprocessRun (command : list string)
| OllamaChat (model : string) (messages : list message)
| WhisperLoadModel (name : string)
| WhisperTranscribe (path : string)
| OsRemove (path : string).

(** The answers of the outside world during one run: what the user
    entered, what the clock shows at each reading, and what each
    external call returns or raises.  Within a run no call is made twice
    with the same arguments, so an answer depends on the arguments only.
    A speech recognition result is [None] or a dictionary whose entries
    are strings (the script reads ["text"] only). *)
Record world := World {
  text_input_value : string;                  (* st.text_input(...) *)
  button_clicked : bool;                      (* st.button(...) *)
  clock : nat → float;                        (* the n-th time.time() *)
  extract_info : string → outcome info_dict;  (* ydl.extract_info(url, download=True) *)
  subprocess_run : list string → outcome completed_process;
  subprocess_files : list string → gset string;  (* the files the process writes *)
  chat : string → list message → outcome pyval;  (* ollama.chat(model, messages) *)
  load_model : string → outcome unit;         (* whisper.load_model(name) *)
  transcribe : string → outcome (option (gmap string string))
                                              (* model.transcribe(path) *)
}.

(** ** State and exceptions *)

Record state := State {
  fs : gset string;        (* the paths that exist *)
  trace : list event;      (* the events so far, oldest first *)
  reads : nat              (* how often the clock was read *)
}.

Definition M (A : Type) : Type := state → outcome A * state.

#[global] Instance M_ret : MRet M := λ A a st, (Ok a, st).

#[global] Instance M_bind : MBind M := λ A B f m st,
  match m st with
  | (Ok a, st') => f a st'
  | (Raise e, st') => (Raise e, st')
  end.

Definition raise {A} (e : exn) : M A := λ st, (Raise e, st).

(** [try: body except Exception as e: handler(e)]. *)
Definition try_except {A} (body : M A) (handler : exn → M A) : M A := λ st,
  match body st with
  | (Ok a, st') => (Ok a, st')
  | (Raise e, st') => handler e st'
  end.

Definition log (e : event) (st : state) : state :=
  State (fs st) (trace st ++ [e]) (reads st).

Definition emit (e : event) : M unit := λ st, (Ok tt, log e st).

(** An external call: logged, then answered by the world. *)
Definition call {A} (e : event) (answer : outcome A) : M A := λ st,
  (answer, log e st).

Definition write_files (files : gset string) : M unit := λ st,
  (Ok tt, State (fs st ∪ files) (trace st) (reads st)).

Fixpoint for_each {A} (l : list A) (body : A → M unit) : M unit :=
  match l with
  | [] => mret tt
  | x :: l' => body x;; for_each l' body
  end.

(** ** The operating system *)

Definition os_path_exists (path : string) : M bool := λ st,
  (Ok (bool_decide (path ∈ fs st)), st).

Definition os_remove (path : string) : M unit := λ st,
  if bool_decide (path ∈ fs st)
  then (Ok tt, State (fs st ∖ {[path]}) (trace st ++ [OsRemove path]) (reads st))
  else (Raise (Exn "FileNotFoundError"
                 ("[Errno 2] No such file or directory: '" +:+ path +:+ "'")),
        log (OsRemove path) st).

Definition time_time (w : world) : M float := λ st,
  let t := clock w (reads st) in
  (Ok t, State (fs st) (trace st ++ [TimeTime t]) (S (reads st))).

(** ** The script *)

Section Script.

Context (w : world).

Definition ydl_opts : ydl_options :=
  YdlOptions "bestaudio/best" "downloaded_audio." true true.

Definition prepare_filename (opts : ydl_options) (info : info_dict) : string :=
  outtmpl_stem opts +:+ ext info.

Definition download_video (url : string) : M string :=
  info_dict ← call (YdlExtractInfo ydl_opts url) (extract_info w url);
  let file_path := prepare_filename ydl_opts info_dict in
  write_files {[file_path]};;
  mret file_path.

(** [subprocess.run(command, capture_output=True, text=True)]: the
    process leaves its files behind, whatever its exit status. *)
Definition subprocess_run_ (command : list string) : M completed_process :=
  write_files (subprocess_files w command);;
  call (SubprocessRun command) (subprocess_run w command).

(** The argument list built by [convert_audio]. *)
Definition ffmpeg_command (input_path output_path : string) : list string :=
  ["ffmpeg"; "-i"; input_path; "-ac"; "1"; "-ar"; "16000"; output_path; "-y"].

Definition convert_audio (input_path : string) : M string :=
  let output_path := "converted_audio.wav" in
  let command := ffmpeg_command input_path output_path in
  result ← subprocess_run_ command;
  if negb (returncode result =? 0)%Z then
    emit (StError ("❌ FFmpeg conversion failed:" +:+ newline +:+ stderr result));;
    raise (Exn "RuntimeError" "FFmpeg conversion failed")
  else
    mret output_path.

Definition greeting : list message := [Message "user" "Hello!"].

Definition initialize_model : M (option string) :=
  let model_name := "llama3.2:latest" in
  try_except
    (response ← call (OllamaChat model_name greeting) (chat w model_name greeting);
     (if py_truthy response
      then emit (StSuccess "✅ Model loaded successfully!")
      else mret tt);;
     mret (Some model_name))
    (λ e,
     emit (StError ("❌ Ollama Model failed: " +:+ exn_str e));;
     mret None).

Definition summarize_prompt (text : string) : list message :=
  [Message "user" ("Summarize this: " +:+ text)].

(** [v.strip()]: defined on strings only. *)
Definition py_strip (v : pyval) : outcome string :=
  match v with
  | PyStr s => Ok (strip s)
  | _ => Raise (attribute_error v "strip")
  end.

Definition lift {A} (r : outcome A) : M A := λ st, (r, st).

Definition summarize_text (text model : string) : M (option string) :=
  try_except
    (response ← call (OllamaChat model (summarize_prompt text))
                     (chat w model (summarize_prompt text));
     msg ← lift (py_get response "message" (PyDict ∅));
     body ← lift (py_get msg "content" (PyStr ""));
     summary ← lift (py_strip body);
     mret (Some summary))
    (λ e,
     emit (StError ("❌ Failed to summarize: " +:+ exn_str e));;
     mret None).

Definition transcribe_audio (file_path : string) : M (option string) :=
  emit (StSuccess "✅ Transcribing Audio Using Whisper...");;
  file_path ← (if negb (endswith file_path ".wav")
               then convert_audio file_path
               else mret file_path);
  model ← call (WhisperLoadModel "small") (load_model w "small");
  result ← call (WhisperTranscribe file_path) (transcribe w file_path);
  match result with
  | Some d =>
      match d !! "text" with
      | Some text =>
          emit (StSuccess "✅ Transcription Complete!");;
          mret (Some text)
      | None =>
          emit (StError "❌ Transcription failed.");;
          mret None
      end
  | None =>
      emit (StError "❌ Transcription failed.");;
      mret None
  end.

Definition cleanup_files : M unit :=
  let files := ["downloaded_audio.mp3"; "converted_audio.wav"] in
  for_each files (λ file : string,
    found ← os_path_exists file;
    if (found : bool) then os_remove file else mret tt).

Definition delete_file (file_path : string) : M unit :=
  found ← os_path_exists file_path;
  if (found : bool) then os_remove file_path else mret tt.

(** [st.text_input] and [st.button] return what the user entered. *)
Definition st_text_input (label : string) : M string :=
  emit (StTextInput label);; mret (text_input_value w).

Definition st_button (label : string) : M bool :=
  emit (StButton label);; mret (button_clicked w).

(** The style sheet [set_background] writes. *)
Definition background_css (image_url : string) : string :=
  "
        <style>
        .stApp {
            background: linear-gradient(rgba(0, 0, 0, 0.5), rgba(0, 0, 0, 0.5)), 
                        url(" +:+ dquote +:+ image_url +:+ dquote +:+ ");
            background-size: cover;
            background-position: center;
            background-repeat: no-repeat;
        }
        </style>
        ".

Definition set_background (image_url : string) : M unit :=
  emit (StMarkdown (background_css image_url)).

Definition background_url : string :=
  "https://static.vecteezy.com/system/resources/previews/027/570/055/non_2x/sunset-in-the-sea-black-and-white-chill-lo-fi-background-bay-paradise-island-outline-2d-cartoon-landscape-illustration-monochromatic-lofi-wallpaper-desktop-bw-90s-retro-art-vector.jpg".

(** The two columns of the result page: the video, and the summary or
    the failure message. *)
Definition render_result (youtube_url : string) (summary : option string)
    (elapsed_time : float) : M unit :=
  emit (StColumns [1; 1]);;
  emit (StVideo youtube_url);;
  emit (StHeader "📜 Summary");;
  match summary with
  | Some text =>
      if str_truthy text then
        emit (StSuccess text);;
        emit (StWriteProcessingTime elapsed_time)
      else
        emit (StError "❌ Summary generation failed.")
  | None =>
      emit (StError "❌ Summary generation failed.")
  end.

(** The body of the [try] block of [main]; [mret tt] where the source
    has a bare [return]. *)
Definition pipeline (youtube_url : string) (start_time : float) : M unit :=
  emit (StSuccess "✅ Downloading Audio...");;
  file_path ← download_video youtube_url;

  emit (StInfo "🔄 Initializing AI Model...");;
  model ← initialize_model;
  match model with
  | None => mret tt
  | Some model =>
      if negb (str_truthy model) then mret tt else

      emit (StInfo "🎙️ Transcribing Audio...");;
      transcription ← transcribe_audio file_path;
      match transcription with
      | None => mret tt
      | Some transcription =>
          if negb (str_truthy transcription) then mret tt else

          emit (StInfo "📝 Generating Summary...");;
          summary ← summarize_text transcription model;

          end_time ← time_time w;
          let elapsed_time := PrimFloat.sub end_time start_time in

          render_result youtube_url summary elapsed_time;;

          cleanup_files
      end
  end.

Definition main : M unit :=
  set_background background_url;;

  emit (StMarkdown "<h1 style='text-align: center;'>Semisizer</h1>");;
  emit (StMarkdown "<h3 style='text-align: center;'>YouTube Video Summarizer</h3>");;

  emit (StExpander "About the App");;
  emit (StWrite "This app extracts and summarizes YouTube video content using AI.");;
  emit (StWrite "Enter a YouTube URL and click 'Summarize' to start.");;

  youtube_url ← st_text_input "🔗Enter YouTube URL";

  clicked ← st_button "Summarize ▶";
  if (clicked : bool) && str_truthy youtube_url then
    start_time ← time_time w;
    try_except
      (pipeline youtube_url start_time)
      (λ e, emit (StError ("❌ Error: " +:+ exn_str e)))
  else
    mret tt.

(** The module run as a script: the page set-up, [main()], and the two
    deletions at the end of the file. *)
Definition script : M unit :=
  emit (StSetPageConfig "wide");;
  emit (StMarkdown "
    <style>
        header {visibility: hidden;}
        footer {visibility: hidden;}
        .block-container { padding-top: 0rem; }
    </style>
");;
  main;;
  delete_file "downloaded_audio.webm";;
  delete_file "converted_audio.wav".

End Script.

Definition initial (files : gset string) : state := State files [] 0.

(** ** Vocabulary of the properties *)

(** The events [main] produces before it looks at the button. *)
Definition page : list event :=
  [ StMarkdown (background_css background_url);
    StMarkdown "<h1 style='text-align: center;'>Semisizer</h1>";
    StMarkdown "<h3 style='text-align: center;'>YouTube Video Summarizer</h3>";
    StExpander "About the App";
    StWrite "This app extracts and summarizes YouTube video content using AI.";
    StWrite "Enter a YouTube URL and click 'Summarize' to start.";
    StTextInput "🔗Enter YouTube URL";
    StButton "Summarize ▶" ].

(** The state after one reading of the clock. *)
Definition tick (w : world) (st : state) : state :=
  State (fs st) (trace st ++ [TimeTime (clock w (reads st))]) (S (reads st)).

(** The state in which [main] enters its [try] block. *)
Definition entered (w : world) (st : state) : state :=
  tick w (State (fs st) (trace st ++ page) (reads st)).

(** The handler of the [try] block of [main]. *)
Definition report (e : exn) : event := StError ("❌ Error: " +:+ exn_str e).

(** A call of the conversion executable. *)
Definition is_conversion (e : event) : Prop :=
  ∃ command, e = SubprocessRun command.

(** A call into the speech model: loading it, or transcribing. *)
Definition is_transcription (e : event) : Prop :=
  (∃ name, e = WhisperLoadModel name) ∨ (∃ path, e = WhisperTranscribe path).

(** A call of the language model with the summarisation prompt. *)
Definition is_summarization (e : event) : Prop :=
  ∃ model text, e = OllamaChat model (summarize_prompt text).

(** [m] only appends to the trace, and every event it appends
    satisfies [P]. *)
Definition emits {A} (P : event → Prop) (m : M A) : Prop :=
  ∀ st, ∃ delta, trace (snd (m st)) = trace st ++ delta ∧ Forall P delta.

(** [transcribe_audio] on [file_path] from [st] hands the path [p1] to
    the speech model in state [st1]: the file itself when it is a
    waveform file already, the converted file otherwise. *)
Definition resolved (w : world) (file_path : string) (st : state)
    (p1 : string) (st1 : state) : Prop :=
  let announced := log (StSuccess "✅ Transcribing Audio Using Whisper...") st in
  (endswith file_path ".wav" = true ∧ p1 = file_path ∧ st1 = announced) ∨
  (endswith file_path ".wav" = false ∧
   convert_audio w file_path announced = (Ok p1, st1)).

(** The last part of [transcribe_audio], from loading the speech model
    on: what it does with the path it is left with. *)
Definition recognize (w : world) (path : string) : M (option string) :=
  model ← call (WhisperLoadModel "small") (load_model w "small");
  result ← call (WhisperTranscribe path) (transcribe w path);
  match result with
  | Some d =>
      match d !! "text" with
      | Some text =>
          emit (StSuccess "✅ Transcription Complete!");;
          mret (Some text)
      | None =>
          emit (StError "❌ Transcription failed.");;
          mret None
      end
  | None =>
      emit (StError "❌ Transcription failed.");;
      mret None
  end.

(** The stages of a run started in [st]: the download gave [path] and
    the model [model] answered, leaving [st2] ... *)
Definition reaches_transcribing (w : world) (url : string) (st : state)
    (path model : string) (st2 : state) : Prop :=
  ∃ st1,
    download_video w url (log (StSuccess "✅ Downloading Audio...") st)
      = (Ok path, st1) ∧
    initialize_model w (log (StInfo "🔄 Initializing AI Model...") st1)
      = (Ok (Some model), st2) ∧
    str_truthy model = true.

(** ... the transcription gave the non-empty [text], leaving [st3] ... *)
Definition reaches_summarizing (w : world) (url : string) (st : state)
    (model text : string) (st3 : state) : Prop :=
  ∃ path st2,
    reaches_transcribing w url st path model st2 ∧
    transcribe_audio w path (log (StInfo "🎙️ Transcribing Audio...") st2)
      = (Ok (Some text), st3) ∧
    str_truthy text = true.

(** ... and [summarize_text] returned [summary], leaving [st4]. *)
Definition summarized (w : world) (url : string) (st : state)
    (summary : option string) (st4 : state) : Prop :=
  ∃ model text st3,
    reaches_summarizing w url st model text st3 ∧
    summarize_text w text model (log (StInfo "📝 Generating Summary...") st3)
      = (Ok summary, st4).

(** A list that is a sequence of characters of [pats]. *)
Inductive made_of (pats : list (list ascii)) : list ascii → Prop :=
| made_nil : made_of pats []
| made_cons c s : c ∈ pats → made_of pats s → made_of pats (c ++ s).

(** A list made of whitespace characters only. *)
Definition blank : list ascii → Prop := made_of whitespace.

(** [s] neither starts nor ends with a whitespace character. *)
Definition trimmed (s : list ascii) : Prop :=
  (∀ c rest, c ∈ whitespace → s ≠ c ++ rest) ∧
  (∀ c rest, c ∈ whitespace → s ≠ rest ++ c).

(** ** Sample worlds *)

Definition sample_url : string := "https://www.youtube.com/watch?v=jNQXAC9IVRw".

(** A response of the language model with [c] as message content. *)
Definition reply (c : string) : pyval :=
  PyDict {[ "model" := PyStr "llama3.2:latest";
            "message" := PyDict {[ "role" := PyStr "assistant";
                                   "content" := PyStr c ]};
            "done" := PyBool true ]}.

(** A response that carries no message at all. *)
Definition bare_reply : pyval :=
  PyDict {[ "model" := PyStr "llama3.2:latest"; "done" := PyBool true ]}.

Definition answer (summary : outcome pyval) (model : string)
    (messages : list message) : outcome pyval :=
  match messages with
  | [Message _ "Hello!"] => Ok (reply "Hello! How can I help you today?")
  | _ => summary
  end.

(** The download gives a webm file, the conversion succeeds, the speech
    model hears a sentence and the language model summarises it. *)
Definition world_ok : world := {|
  text_input_value := sample_url;
  button_clicked := true;
  clock := λ n, match n with O => 100.5%float | S _ => 130.75%float end;
  extract_info := λ _, Ok (InfoDict "webm");
  subprocess_run := λ _, Ok (CompletedProcess 0 "" "");
  subprocess_files := λ _, {["converted_audio.wav"]};
  chat := answer (Ok (reply ("  The first video on YouTube." +:+ newline)));
  load_model := λ _, Ok tt;
  transcribe := λ _, Ok (Some {[ "text" := " All right, so here we are.";
                                 "language" := "en" ]})
|}.

Definition with_download (info : outcome info_dict) (w : world) : world :=
  World (text_input_value w) (button_clicked w) (clock w) (λ _, info)
        (subprocess_run w) (subprocess_files w) (chat w) (load_model w)
        (transcribe w).

Definition with_subprocess (result : outcome completed_process)
    (files : gset string) (w : world) : world :=
  World (text_input_value w) (button_clicked w) (clock w) (extract_info w)
        (λ _, result) (λ _, files) (chat w) (load_model w) (transcribe w).

Definition with_chat (c : string → list message → outcome pyval) (w : world)
  : world :=
  World (text_input_value w) (button_clicked w) (clock w) (extract_info w)
        (subprocess_run w) (subprocess_files w) c (load_model w) (transcribe w).

Definition with_transcribe (result : outcome (option (gmap string string)))
    (w : world) : world :=
  World (text_input_value w) (button_clicked w) (clock w) (extract_info w)
        (subprocess_run w) (subprocess_files w) (chat w) (load_model w)
        (λ _, result).

(** An mp3 download the conversion executable rejects. *)
Definition world_ffmpeg_fails : world :=
  with_download (Ok (InfoDict "mp3"))
    (with_subprocess
       (Ok (CompletedProcess 1 ""
              "downloaded_audio.mp3: Invalid data found when processing input"))
       ∅ world_ok).

(** The language model cannot be reached. *)
Definition world_ollama_down : world :=
  with_chat (λ _ _, Raise (Exn "ConnectionError"
                             "Failed to connect to Ollama."))
    world_ok.

(** A waveform download in which nothing is said. *)
Definition world_silent : world :=
  with_download (Ok (InfoDict "wav"))
    (with_transcribe (Ok (Some {[ "text" := ""; "language" := "en" ]})) world_ok).

(** The speech model gives a result without a text. *)
Definition world_no_text : world :=
  with_transcribe (Ok (Some {[ "language" := "en" ]})) world_ok.

(** The language model greets, then fails on the summary. *)
Definition world_no_summary : world :=
  with_chat (answer (Raise (Exn "ResponseError" "model runner has stopped")))
    world_ok.

(** The language model greets, then answers without a message. *)
Definition world_bare_reply : world :=
  with_chat (answer (Ok bare_reply)) world_ok.

(** The state in which the run of [w] from an empty directory has its
    summary, when the download is a webm file and every step succeeds. *)
Definition sample_summarized (w : world) : state :=
  let st0 := entered w (initial ∅) in
  let st1 := snd (download_video w sample_url
                    (log (StSuccess "✅ Downloading Audio...") st0)) in
  let st2 := snd (initialize_model w
                    (log (StInfo "🔄 Initializing AI Model...") st1)) in
  let st3 := snd (transcribe_audio w "downloaded_audio.webm"
                    (log (StInfo "🎙️ Transcribing Audio...") st2)) in
  snd (summarize_text w " All right, so here we are." "llama3.2:latest"
         (log (StInfo "📝 Generating Summary...") st3)).

(** ** Vocabulary of the further properties *)

From Stdlib Require Import Sorted.

(** The style sheet the script writes before [main]. *)
Definition page_style : string := "
    <style>
        header {visibility: hidden;}
        footer {visibility: hidden;}
        .block-container { padding-top: 0rem; }
    </style>
".

(** The state in which the script calls [main]. *)
Definition opened (st : state) : state :=
  State (fs st)
        (trace st ++ [StSetPageConfig "wide"; StMarkdown page_style])
        (reads st).

(** The three names the script ever deletes. *)
Definition candidates : gset string :=
  {["downloaded_audio.mp3"; "converted_audio.wav"; "downloaded_audio.webm"]}.

(** [m] does not delete [path]. *)
Definition fs_keeps {A} (path : string) (m : M A) : Prop :=
  ∀ st, path ∈ fs st → path ∈ fs (snd (m st)).

(** The state in which the run of [w] started in [st] has its summary,
    when the download is a webm file and every step succeeds. *)
Definition sample_run (w : world) (st : state) : state :=
  let st0 := entered w st in
  let st1 := snd (download_video w sample_url
                    (log (StSuccess "✅ Downloading Audio...") st0)) in
  let st2 := snd (initialize_model w
                    (log (StInfo "🔄 Initializing AI Model...") st1)) in
  let st3 := snd (transcribe_audio w "downloaded_audio.webm"
                    (log (StInfo "🎙️ Transcribing Audio...") st2)) in
  snd (summarize_text w " All right, so here we are." "llama3.2:latest"
         (log (StInfo "📝 Generating Summary...") st3)).

(** An m4a download; everything else works. *)
Definition world_m4a : world := with_download (Ok (InfoDict "m4a")) world_ok.

(** The downloader cannot reach the video. *)
Definition world_offline : world :=
  with_download
    (Raise (Exn "DownloadError" "ERROR: Unable to download webpage")) world_ok.

(** Nothing was entered before the button was pressed. *)
Definition world_no_url : world :=
  World "" true (clock world_ok) (extract_info world_ok)
        (subprocess_run world_ok) (subprocess_files world_ok) (chat world_ok)
        (load_model world_ok) (transcribe world_ok).

(** The language model greets, then answers with a null content. *)
Definition world_null_content : world :=
  with_chat
    (answer (Ok (PyDict {[ "message" := PyDict {[ "role" := PyStr "assistant";
                                                  "content" := PyNone ]} ]})))
    world_ok.

(** The speech model cannot be loaded. *)
Definition world_no_whisper : world :=
  World sample_url true (clock world_ok) (λ _, Ok (InfoDict "wav"))
        (subprocess_run world_ok) (subprocess_files world_ok) (chat world_ok)
        (λ _, Raise (Exn "RuntimeError" "CUDA out of memory"))
        (transcribe world_ok).

(** No element of [pats] is a proper prefix of another. *)
Definition prefix_free (pats : list (list ascii)) : bool :=
  forallb (λ c,
    forallb (λ c', match drop_prefix c c' with
                   | Some (_ :: _) => false
                   | _ => true
                   end) pats) pats.

(** The language model greets, then answers with blanks only. *)
Definition world_blank_reply : world :=
  with_chat (answer (Ok (reply ("  " +:+ newline)))) world_ok.

(** The request [initialize_model] sends. *)
Definition is_greeting (messages : list message) : bool :=
  match messages with
  | [m] => String.eqb (role m) "user" && String.eqb (content m) "Hello!"
  | _ => false
  end.

(** The stage of the run an external call belongs to: 1 the download,
    2 the greeting of the language model, 3 the conversion, 4 loading the
    speech model, 5 the transcription, 6 any other request to the
    language model, 7 a deletion.  What is only shown has no stage. *)
Definition stage (e : event) : option nat :=
  match e with
  | YdlExtractInfo _ _ => Some 1
  | OllamaChat _ messages => if is_greeting messages then Some 2 else Some 6
  | SubprocessRun _ => Some 3
  | WhisperLoadModel _ => Some 4
  | WhisperTranscribe _ => Some 5
  | OsRemove _ => Some 7
  | _ => None
  end.

(** Stage [n] may be followed by stage [m]: a later one, or one more
    deletion after a deletion. *)
Definition precedes (n m : nat) : Prop := n < m ∨ (n = 7 ∧ m = 7).

(** The calls [m] makes are in order, and of stages from [lo] up to,
    but not including, [hi]. *)
Definition in_order {A} (lo hi : nat) (m : M A) : Prop :=
  ∀ st, ∃ delta,
    trace (snd (m st)) = trace st ++ delta ∧
    StronglySorted precedes (omap stage delta) ∧
    Forall (λ n, lo ≤ n < hi) (omap stage delta).

(** * Strings *)

Lemma drop_prefix_spec p s r : drop_prefix p s = Some r ↔ s = p ++ r.
Proof.
  revert s. induction p as [|a p IH]; intros s; cbn.
  - split; congruence.
  - destruct s as [|b s]; [split; discriminate|].
    destruct (Ascii.eqb_spec a b) as [->|Hne].
    + rewrite IH. split; congruence.
    + split; [discriminate | congruence].
Qed.

Lemma drop_one_Some pats s r :
  drop_one pats s = Some r → ∃ c, c ∈ pats ∧ s = c ++ r.
Proof.
  induction pats as [|p pats IH]; cbn; [discriminate|].
  destruct (drop_prefix p s) as [r'|] eqn:Hp.
  - intros [= ->]. exists p. split; [by left | by apply drop_prefix_spec].
  - intros H. destruct (IH H) as (c & Hc & ->). exists c. split; [by right | done].
Qed.

Lemma drop_one_None pats s c rest :
  drop_one pats s = None → c ∈ pats → s ≠ c ++ rest.
Proof.
  induction pats as [|p pats IH]; cbn; intros H Hc; [by apply elem_of_nil in Hc|].
  destruct (drop_prefix p s) as [r'|] eqn:Hp; [discriminate|].
  apply elem_of_cons in Hc as [->|Hc]; [|by apply IH].
  intros Heq. apply drop_prefix_spec in Heq. congruence.
Qed.

Lemma drop_while_spec pats fuel s :
  Forall (λ c, c ≠ []) pats →
  length s ≤ fuel →
  ∃ l, s = l ++ drop_while pats fuel s ∧ made_of pats l ∧
       drop_one pats (drop_while pats fuel s) = None.
Proof.
  intros Hne. revert s. induction fuel as [|fuel IH]; intros s Hlen; cbn.
  - destruct s; [|cbn in Hlen; lia].
    exists []. split; [done|]. split; [constructor|].
    destruct (drop_one pats []) as [r|] eqn:Hd; [|done].
    apply drop_one_Some in Hd as (c & Hc & Heq).
    symmetry in Heq. apply app_eq_nil in Heq as [-> _].
    by eapply Forall_forall in Hne.
  - destruct (drop_one pats s) as [r|] eqn:Hd.
    + destruct (drop_one_Some _ _ _ Hd) as (c & Hc & ->).
      assert (c ≠ []) as Hc' by by eapply Forall_forall in Hne.
      destruct (IH r) as (l & Hl & Hmade & Hstop).
      { rewrite length_app in Hlen. destruct c; [done|]. cbn in Hlen. lia. }
      exists (c ++ l). split; [|split; [by constructor | done]].
      rewrite <- app_assoc. by rewrite <- Hl.
    + exists []. split; [done|]. split; [constructor | done].
Qed.

Lemma made_of_app pats s t : made_of pats s → made_of pats t → made_of pats (s ++ t).
Proof.
  induction 1 as [|c s Hc Hs IH]; intros Ht; [done|].
  rewrite <- app_assoc. constructor; auto.
Qed.

Lemma made_of_rev pats s : made_of (map (@rev ascii) pats) s → made_of pats (rev s).
Proof.
  induction 1 as [|c s Hc Hs IH]; [constructor|].
  rewrite rev_app_distr. apply made_of_app; [done|].
  apply list_elem_of_fmap in Hc as (c' & -> & Hc').
  rewrite rev_involutive. rewrite <- (app_nil_r c'). constructor; [done | constructor].
Qed.

Lemma whitespace_nonempty : Forall (λ c, c ≠ []) whitespace.
Proof. unfold whitespace. cbn. repeat constructor; discriminate. Qed.

Lemma rev_whitespace_nonempty : Forall (λ c, c ≠ []) (map (@rev ascii) whitespace).
Proof. unfold whitespace. cbn. repeat constructor; discriminate. Qed.

Lemma lstrip_bytes_spec s :
  ∃ l, s = l ++ lstrip_bytes s ∧ blank l ∧
       ∀ c rest, c ∈ whitespace → lstrip_bytes s ≠ c ++ rest.
Proof.
  destruct (drop_while_spec whitespace (length s) s whitespace_nonempty)
    as (l & Hl & Hmade & Hstop); [done|].
  exists l. split; [done|]. split; [done|].
  intros c rest Hc. by apply (drop_one_None whitespace).
Qed.

Lemma rstrip_bytes_spec s :
  ∃ r, s = rstrip_bytes s ++ r ∧ blank r ∧
       ∀ c rest, c ∈ whitespace → rstrip_bytes s ≠ rest ++ c.
Proof.
  destruct (drop_while_spec (map (@rev ascii) whitespace) (length s) (rev s)
              rev_whitespace_nonempty) as (l & Hl & Hmade & Hstop).
  { by rewrite length_rev. }
  exists (rev l). unfold rstrip_bytes. split; [|split].
  - rewrite <- rev_app_distr, <- Hl. symmetry. apply rev_involutive.
  - by apply made_of_rev.
  - intros c rest Hc Heq.
    apply (drop_one_None _ _ (rev c) (rev rest) Hstop).
    + apply list_elem_of_fmap. eauto.
    + rewrite <- rev_app_distr, <- Heq. symmetry. apply rev_involutive.
Qed.

(** [strip] removes whitespace, and only whitespace, from both ends. *)
Lemma strip_spec s :
  ∃ l r, list_ascii_of_string s = l ++ list_ascii_of_string (strip s) ++ r ∧
         blank l ∧ blank r ∧ trimmed (list_ascii_of_string (strip s)).
Proof.
  unfold strip. rewrite list_ascii_of_string_of_list_ascii.
  destruct (lstrip_bytes_spec (list_ascii_of_string s)) as (l & Hl & Hbl & Hstart).
  destruct (rstrip_bytes_spec (lstrip_bytes (list_ascii_of_string s)))
    as (r & Hr & Hbr & Hend).
  exists l, r. split; [congruence|]. split; [done|]. split; [done|].
  split; [|done].
  intros c rest Hc Heq. apply (Hstart c (rest ++ r) Hc).
  rewrite Hr, Heq. symmetry. apply app_assoc.
Qed.

(** * Reasoning about runs *)

Section Emits.

Context {A B : Type} (P : event → Prop).

Lemma emits_ret (a : A) : emits P (mret a).
Proof. intros st. exists []. split; [symmetry; apply app_nil_r | constructor]. Qed.

Lemma emits_raise (e : exn) : emits P (@raise A e).
Proof. intros st. exists []. split; [symmetry; apply app_nil_r | constructor]. Qed.

Lemma emits_lift (r : outcome A) : emits P (lift r).
Proof. intros st. exists []. split; [symmetry; apply app_nil_r | constructor]. Qed.

Lemma emits_emit (e : event) : P e → emits P (emit e).
Proof. intros He st. exists [e]. split; [reflexivity | by constructor]. Qed.

Lemma emits_call (e : event) (r : outcome A) : P e → emits P (call e r).
Proof. intros He st. exists [e]. split; [reflexivity | by constructor]. Qed.

Lemma emits_bind (m : M A) (f : A → M B) :
  emits P m →
  (∀ a st st', m st = (Ok a, st') → emits P (f a)) →
  emits P (m ≫= f).
Proof.
  intros Hm Hf st. unfold mbind, M_bind.
  destruct (Hm st) as (d1 & Ht1 & HP1).
  destruct (m st) as [[a|e] st1] eqn:Hrun; cbn [snd] in *.
  - destruct (Hf a st st1 Hrun st1) as (d2 & Ht2 & HP2).
    exists (d1 ++ d2). split.
    + rewrite Ht2, Ht1. symmetry. apply app_assoc.
    + by apply Forall_app.
  - by exists d1.
Qed.

Lemma emits_try_except (body : M A) (handler : exn → M A) :
  emits P body →
  (∀ e, emits P (handler e)) →
  emits P (try_except body handler).
Proof.
  intros Hb Hh st. unfold try_except.
  destruct (Hb st) as (d1 & Ht1 & HP1).
  destruct (body st) as [[a|e] st1]; cbn [snd] in *.
  - by exists d1.
  - destruct (Hh e st1) as (d2 & Ht2 & HP2).
    exists (d1 ++ d2). split.
    + rewrite Ht2, Ht1. symmetry. apply app_assoc.
    + by apply Forall_app.
Qed.

End Emits.

Lemma emits_write_files P files : emits P (write_files files).
Proof. intros st. exists []. split; [symmetry; apply app_nil_r | constructor]. Qed.

Lemma emits_os_path_exists P path : emits P (os_path_exists path).
Proof. intros st. exists []. split; [symmetry; apply app_nil_r | constructor]. Qed.

Lemma emits_os_remove (P : event → Prop) path :
  P (OsRemove path) → emits P (os_remove path).
Proof.
  intros HP st. exists [OsRemove path]. unfold os_remove.
  split; [by case_bool_decide | by constructor].
Qed.

Lemma emits_time_time (P : event → Prop) w :
  (∀ t, P (TimeTime t)) → emits P (time_time w).
Proof. intros HP st. eexists [_]. split; [reflexivity | by constructor]. Qed.

Lemma emits_for_each {A} (P : event → Prop) (l : list A) (body : A → M unit) :
  (∀ x, x ∈ l → emits P (body x)) → emits P (for_each l body).
Proof.
  induction l as [|x l IH]; intros Hbody; cbn [for_each].
  - apply emits_ret.
  - apply emits_bind.
    + apply Hbody. by left.
    + intros _ _ _ _. apply IH. intros y Hy. apply Hbody. by right.
Qed.

(** Splits [emits P m] along the structure of [m], leaving [P e] for
    each event [e] the code can append. *)
Ltac emits_step :=
  lazymatch goal with
  | |- emits _ (mret _) => apply emits_ret
  | |- emits _ (raise _) => apply emits_raise
  | |- emits _ (lift _) => apply emits_lift
  | |- emits _ (emit _) => apply emits_emit
  | |- emits _ (call _ _) => apply emits_call
  | |- emits _ (write_files _) => apply emits_write_files
  | |- emits _ (os_path_exists _) => apply emits_os_path_exists
  | |- emits _ (os_remove _) => apply emits_os_remove
  | |- emits _ (time_time _) => apply emits_time_time; intros ?
  | |- emits _ (try_except _ _) => apply emits_try_except; [|intros ?]
  | |- emits _ (mbind _ _) => apply emits_bind; [|intros ? ? ? ?]
  | |- emits _ (if ?b then _ else _) => destruct b eqn:?
  | |- emits _ (match ?x with _ => _ end) => destruct x eqn:?
  end.

Ltac emits_go := repeat emits_step.

Section Frames.

Context (w : world) (P : event → Prop).

Lemma download_video_emits url :
  P (YdlExtractInfo ydl_opts url) → emits P (download_video w url).
Proof. intros. unfold download_video. emits_go; auto. Qed.

Lemma convert_audio_emits input_path :
  P (SubprocessRun (ffmpeg_command input_path "converted_audio.wav")) →
  (∀ body, P (StError body)) →
  emits P (convert_audio w input_path).
Proof. intros. unfold convert_audio, subprocess_run_. emits_go; auto. Qed.

Lemma initialize_model_emits :
  P (OllamaChat "llama3.2:latest" greeting) →
  (∀ body, P (StSuccess body)) →
  (∀ body, P (StError body)) →
  emits P (initialize_model w).
Proof. intros. unfold initialize_model. emits_go; auto. Qed.

Lemma summarize_text_emits text model :
  P (OllamaChat model (summarize_prompt text)) →
  (∀ body, P (StError body)) →
  emits P (summarize_text w text model).
Proof. intros. unfold summarize_text. emits_go; auto. Qed.

Lemma transcribe_audio_emits file_path :
  (∀ command, P (SubprocessRun command)) →
  (∀ name, P (WhisperLoadModel name)) →
  (∀ path, P (WhisperTranscribe path)) →
  (∀ body, P (StSuccess body)) →
  (∀ body, P (StError body)) →
  emits P (transcribe_audio w file_path).
Proof.
  intros. unfold transcribe_audio. emits_go; auto.
  apply convert_audio_emits; auto.
Qed.

Lemma cleanup_files_emits :
  (∀ path, P (OsRemove path)) → emits P cleanup_files.
Proof.
  intros. unfold cleanup_files. apply emits_for_each. intros. emits_go; auto.
Qed.

Lemma render_result_emits url summary elapsed :
  P (StColumns [1; 1]) → P (StVideo url) → (∀ body, P (StHeader body)) →
  (∀ body, P (StSuccess body)) → (∀ body, P (StError body)) →
  (∀ t, P (StWriteProcessingTime t)) →
  emits P (render_result url summary elapsed).
Proof. intros. unfold render_result. emits_go; auto. Qed.

End Frames.

(** * Running the script, one call at a time *)

(** Unfolds the script's functions and the monad, and nothing else:
    strings and file sets stay as they are written. *)
Ltac step :=
  cbv beta iota zeta delta
    [script main pipeline render_result transcribe_audio summarize_text
     initialize_model convert_audio subprocess_run_ download_video
     set_background st_text_input st_button cleanup_files delete_file
     for_each time_time tick entered report os_path_exists
     try_except write_files call emit lift raise log
     mbind M_bind mret M_ret negb fst snd];
  cbn [fs trace reads].

(** Brings a trace into the form [trace st ++ [e1; ...; en]]. *)
Ltac flat := rewrite <- ?app_assoc; cbn [app].

Ltac run := step; flat; try reflexivity.

Section Calls.

Context (w : world).

Lemma download_video_ok url st info :
  extract_info w url = Ok info →
  download_video w url st =
    (Ok (prepare_filename ydl_opts info),
     State (fs st ∪ {[prepare_filename ydl_opts info]})
           (trace st ++ [YdlExtractInfo ydl_opts url]) (reads st)).
Proof. intros H. step. rewrite H. run. Qed.

Lemma download_video_raise url st e :
  extract_info w url = Raise e →
  download_video w url st = (Raise e, log (YdlExtractInfo ydl_opts url) st).
Proof. intros H. step. rewrite H. run. Qed.

Lemma convert_audio_ok input_path st cp :
  subprocess_run w (ffmpeg_command input_path "converted_audio.wav") = Ok cp →
  returncode cp = 0%Z →
  convert_audio w input_path st =
    (Ok "converted_audio.wav",
     State (fs st ∪ subprocess_files w (ffmpeg_command input_path "converted_audio.wav"))
           (trace st ++ [SubprocessRun (ffmpeg_command input_path "converted_audio.wav")])
           (reads st)).
Proof. intros H Hrc. step. rewrite H. step. rewrite Hrc. run. Qed.

Lemma convert_audio_failed input_path st cp :
  subprocess_run w (ffmpeg_command input_path "converted_audio.wav") = Ok cp →
  returncode cp ≠ 0%Z →
  convert_audio w input_path st =
    (Raise (Exn "RuntimeError" "FFmpeg conversion failed"),
     State (fs st ∪ subprocess_files w (ffmpeg_command input_path "converted_audio.wav"))
           (trace st ++
              [SubprocessRun (ffmpeg_command input_path "converted_audio.wav");
               StError ("❌ FFmpeg conversion failed:" +:+ newline +:+ stderr cp)])
           (reads st)).
Proof.
  intros H Hrc. step. rewrite H. step.
  destruct (Z.eqb_spec (returncode cp) 0) as [|_]; [done|]. run.
Qed.

Lemma convert_audio_raise input_path st e :
  subprocess_run w (ffmpeg_command input_path "converted_audio.wav") = Raise e →
  convert_audio w input_path st =
    (Raise e,
     State (fs st ∪ subprocess_files w (ffmpeg_command input_path "converted_audio.wav"))
           (trace st ++ [SubprocessRun (ffmpeg_command input_path "converted_audio.wav")])
           (reads st)).
Proof. intros H. step. rewrite H. run. Qed.

Lemma initialize_model_ok st response :
  chat w "llama3.2:latest" greeting = Ok response →
  initialize_model w st =
    (Ok (Some "llama3.2:latest"),
     State (fs st)
           (trace st ++ OllamaChat "llama3.2:latest" greeting ::
              (if py_truthy response
               then [StSuccess "✅ Model loaded successfully!"] else []))
           (reads st)).
Proof. intros H. step. rewrite H. step. destruct (py_truthy response); run. Qed.

Lemma initialize_model_raise st e :
  chat w "llama3.2:latest" greeting = Raise e →
  initialize_model w st =
    (Ok None,
     State (fs st)
           (trace st ++ [OllamaChat "llama3.2:latest" greeting;
                         StError ("❌ Ollama Model failed: " +:+ exn_str e)])
           (reads st)).
Proof. intros H. step. rewrite H. run. Qed.

(** [initialize_model] returns the fixed model name or [None]; it never
    raises. *)
Lemma initialize_model_result st :
  fst (initialize_model w st) = Ok (Some "llama3.2:latest") ∨
  fst (initialize_model w st) = Ok None.
Proof.
  destruct (chat w "llama3.2:latest" greeting) as [response|e] eqn:H.
  - left. by rewrite (initialize_model_ok _ _ H).
  - right. by rewrite (initialize_model_raise _ _ H).
Qed.

Lemma summarize_text_content text model st d m c :
  chat w model (summarize_prompt text) = Ok (PyDict d) →
  d !! "message" = Some (PyDict m) →
  m !! "content" = Some (PyStr c) →
  summarize_text w text model st =
    (Ok (Some (strip c)), log (OllamaChat model (summarize_prompt text)) st).
Proof.
  intros H Hd Hm. step. rewrite H. cbn [py_get]. rewrite Hd. cbn [from_option id py_get].
  rewrite Hm. cbn [from_option id py_strip]. run.
Qed.

Lemma summarize_text_raise text model st e :
  chat w model (summarize_prompt text) = Raise e →
  summarize_text w text model st =
    (Ok None,
     State (fs st)
           (trace st ++ [OllamaChat model (summarize_prompt text);
                         StError ("❌ Failed to summarize: " +:+ exn_str e)])
           (reads st)).
Proof. intros H. step. rewrite H. run. Qed.

(** Whatever the model answers, [summarize_text] makes one call and
    returns: a string, or [None] after reporting the exception. *)
Lemma summarize_text_cases text model st :
  (∃ summary,
     summarize_text w text model st =
       (Ok (Some summary), log (OllamaChat model (summarize_prompt text)) st)) ∨
  (∃ e,
     summarize_text w text model st =
       (Ok None,
        State (fs st)
              (trace st ++ [OllamaChat model (summarize_prompt text);
                            StError ("❌ Failed to summarize: " +:+ exn_str e)])
              (reads st))).
Proof.
  step.
  destruct (chat w model (summarize_prompt text)) as [response|e]; step;
    [|right; eexists; run].
  destruct (py_get response "message" (PyDict ∅)) as [msg|e]; step;
    [|right; eexists; run].
  destruct (py_get msg "content" (PyStr "")) as [body|e]; step;
    [|right; eexists; run].
  destruct (py_strip body) as [summary|e]; step;
    [left; eexists; run | right; eexists; run].
Qed.

End Calls.

(** The speech-model part of [transcribe_audio], reached in [st1] with
    the path [p1] after the conversion, when there is one. *)
Section Recognition.

Context (w : world) (file_path : string) (st : state).

Let announced : state :=
  log (StSuccess "✅ Transcribing Audio Using Whisper...") st.

Lemma transcribe_audio_convert_raise e st1 :
  endswith file_path ".wav" = false →
  convert_audio w file_path announced = (Raise e, st1) →
  transcribe_audio w file_path st = (Raise e, st1).
Proof.
  intros Hext Hconv. unfold transcribe_audio.
  cbv beta iota zeta delta [mbind M_bind emit negb]. rewrite Hext.
  fold announced. by rewrite Hconv.
Qed.

Lemma transcribe_audio_found p1 st1 u d text :
  resolved w file_path st p1 st1 →
  load_model w "small" = Ok u →
  transcribe w p1 = Ok (Some d) →
  d !! "text" = Some text →
  transcribe_audio w file_path st =
    (Ok (Some text),
     State (fs st1)
           (trace st1 ++ [WhisperLoadModel "small"; WhisperTranscribe p1;
                          StSuccess "✅ Transcription Complete!"])
           (reads st1)).
Proof.
  intros Hres Hload Hrun Htext. unfold transcribe_audio.
  cbv beta iota zeta delta [mbind M_bind emit negb].
  destruct Hres as [(Hext & -> & ->)|(Hext & Hconv)]; rewrite Hext.
  - step. rewrite Hload, Hrun, Htext. run.
  - rewrite Hconv. step. rewrite Hload, Hrun, Htext. run.
Qed.

Lemma transcribe_audio_missing p1 st1 u result :
  resolved w file_path st p1 st1 →
  load_model w "small" = Ok u →
  transcribe w p1 = Ok result →
  result = None ∨ (∃ d, result = Some d ∧ d !! "text" = None) →
  transcribe_audio w file_path st =
    (Ok None,
     State (fs st1)
           (trace st1 ++ [WhisperLoadModel "small"; WhisperTranscribe p1;
                          StError "❌ Transcription failed."])
           (reads st1)).
Proof.
  intros Hres Hload Hrun Hmiss. unfold transcribe_audio.
  cbv beta iota zeta delta [mbind M_bind emit negb].
  destruct Hres as [(Hext & -> & ->)|(Hext & Hconv)]; rewrite Hext, ?Hconv;
    step; rewrite Hload, Hrun;
    destruct Hmiss as [->|(d & -> & ->)]; run.
Qed.

End Recognition.

(** * The orchestrator, stage by stage *)

Ltac enter :=
  cbv beta iota zeta delta [pipeline mbind M_bind mret M_ret emit].

Section Stages.

Context (w : world) (url : string) (t0 : float) (st : state).

Lemma pipeline_download_raise e st1 :
  download_video w url (log (StSuccess "✅ Downloading Audio...") st)
    = (Raise e, st1) →
  pipeline w url t0 st = (Raise e, st1).
Proof. intros H. enter. by rewrite H. Qed.

Lemma pipeline_model_none path st1 st2 :
  download_video w url (log (StSuccess "✅ Downloading Audio...") st)
    = (Ok path, st1) →
  initialize_model w (log (StInfo "🔄 Initializing AI Model...") st1)
    = (Ok None, st2) →
  pipeline w url t0 st = (Ok tt, st2).
Proof. intros H1 H2. enter. by rewrite H1, H2. Qed.

Lemma pipeline_transcribe_raise path model st2 e st3 :
  reaches_transcribing w url st path model st2 →
  transcribe_audio w path (log (StInfo "🎙️ Transcribing Audio...") st2)
    = (Raise e, st3) →
  pipeline w url t0 st = (Raise e, st3).
Proof.
  intros (st1 & H1 & H2 & Hm) H3. enter. rewrite H1, H2, Hm. cbn [negb]. by rewrite H3.
Qed.

Lemma pipeline_transcribe_falsy path model st2 transcription st3 :
  reaches_transcribing w url st path model st2 →
  transcribe_audio w path (log (StInfo "🎙️ Transcribing Audio...") st2)
    = (Ok transcription, st3) →
  opt_str_truthy transcription = false →
  pipeline w url t0 st = (Ok tt, st3).
Proof.
  intros (st1 & H1 & H2 & Hm) H3 Hfalsy. enter. rewrite H1, H2, Hm. cbn [negb]. rewrite H3.
  destruct transcription as [text|]; [|done].
  cbn in Hfalsy. by rewrite Hfalsy.
Qed.

Lemma pipeline_summarized summary st4 :
  summarized w url st summary st4 →
  pipeline w url t0 st =
    (render_result url summary (PrimFloat.sub (clock w (reads st4)) t0);;
     cleanup_files) (tick w st4).
Proof.
  intros (model & text & st3 & (path & st2 & (st1 & H1 & H2 & Hm) & H3 & Ht) & H4).
  enter. rewrite H1, H2, Hm. cbn [negb]. rewrite H3, Ht. cbn [negb]. by rewrite H4.
Qed.

End Stages.

Section Main.

Context (w : world) (st : state).

Lemma main_idle :
  button_clicked w && str_truthy (text_input_value w) = false →
  main w st = (Ok tt, State (fs st) (trace st ++ page) (reads st)).
Proof.
  intros H. unfold main.
  cbv beta iota zeta delta [mbind M_bind mret M_ret emit set_background
                            st_text_input st_button log]; cbn [fs trace reads].
  rewrite H. flat. reflexivity.
Qed.

Lemma main_run :
  button_clicked w && str_truthy (text_input_value w) = true →
  main w st =
    try_except (pipeline w (text_input_value w) (clock w (reads st)))
               (λ e, emit (report e)) (entered w st).
Proof.
  intros H. unfold main.
  cbv beta iota zeta delta [mbind M_bind mret M_ret emit set_background
                            st_text_input st_button log time_time];
    cbn [fs trace reads].
  rewrite H. unfold entered, tick; cbn [fs trace reads]. flat. reflexivity.
Qed.

Lemma main_returned st' :
  button_clicked w && str_truthy (text_input_value w) = true →
  pipeline w (text_input_value w) (clock w (reads st)) (entered w st)
    = (Ok tt, st') →
  main w st = (Ok tt, st').
Proof. intros H Hp. rewrite (main_run H). unfold try_except. by rewrite Hp. Qed.

Lemma main_caught e st' :
  button_clicked w && str_truthy (text_input_value w) = true →
  pipeline w (text_input_value w) (clock w (reads st)) (entered w st)
    = (Raise e, st') →
  main w st = (Ok tt, log (report e) st').
Proof. intros H Hp. rewrite (main_run H). unfold try_except. by rewrite Hp. Qed.

(** [main] returns normally, whatever happens inside. *)
Lemma main_total : fst (main w st) = Ok tt.
Proof.
  destruct (button_clicked w && str_truthy (text_input_value w)) eqn:H.
  - destruct (pipeline w (text_input_value w) (clock w (reads st)) (entered w st))
      as [[[]|e] st'] eqn:Hp.
    + by rewrite (main_returned _ H Hp).
    + by rewrite (main_caught _ _ H Hp).
  - by rewrite (main_idle H).
Qed.

End Main.

(** * Cleanup *)

Lemma state_eta st : State (fs st) (trace st) (reads st) = st.
Proof. by destruct st. Qed.

Lemma delete_file_run path st :
  delete_file path st =
    (Ok tt,
     if bool_decide (path ∈ fs st)
     then State (fs st ∖ {[path]}) (trace st ++ [OsRemove path]) (reads st)
     else st).
Proof.
  unfold delete_file, os_path_exists, os_remove, mbind, M_bind, mret, M_ret.
  destruct (bool_decide (path ∈ fs st)) eqn:H; cbv beta; rewrite ?H; reflexivity.
Qed.

Lemma bind_delete_file path (k : M unit) st :
  (delete_file path;; k) st = k (snd (delete_file path st)).
Proof. unfold mbind, M_bind. by rewrite delete_file_run. Qed.

Lemma cleanup_files_run st :
  cleanup_files st =
    (Ok tt, snd (delete_file "converted_audio.wav"
                   (snd (delete_file "downloaded_audio.mp3" st)))).
Proof.
  change cleanup_files with
    (delete_file "downloaded_audio.mp3";;
     delete_file "converted_audio.wav";; mret tt).
  by rewrite !bind_delete_file.
Qed.

Lemma cleanup_files_fs st :
  fs (snd (cleanup_files st)) =
    fs st ∖ {["downloaded_audio.mp3"; "converted_audio.wav"]}.
Proof.
  rewrite cleanup_files_run, !delete_file_run. cbn [snd].
  repeat case_bool_decide; cbn [fs] in *; set_solver.
Qed.

(** **** C10. Every deletion of the cleanup is guarded by an existence
    check: [delete_file] and [cleanup_files] return normally on every
    filesystem (whereas [os.remove] alone raises on an absent path), they
    leave a state without their targets untouched, and running either a
    second time changes nothing: the state after two runs is the state
    after one. *)
Theorem cleanup_guarded_and_idempotent (path : string) (st : state) :
  (path ∉ fs st → ∃ e st', os_remove path st = (Raise e, st')) ∧
  fst (delete_file path st) = Ok tt ∧
  fs (snd (delete_file path st)) = fs st ∖ {[path]} ∧
  (path ∉ fs st → delete_file path st = (Ok tt, st)) ∧
  delete_file path (snd (delete_file path st))
    = (Ok tt, snd (delete_file path st)) ∧
  fst (cleanup_files st) = Ok tt ∧
  fs (snd (cleanup_files st))
    = fs st ∖ {["downloaded_audio.mp3"; "converted_audio.wav"]} ∧
  ("downloaded_audio.mp3" ∉ fs st → "converted_audio.wav" ∉ fs st →
   cleanup_files st = (Ok tt, st)) ∧
  cleanup_files (snd (cleanup_files st)) = (Ok tt, snd (cleanup_files st)).
Proof.
  assert (∀ p s, p ∉ fs s → delete_file p s = (Ok tt, s)) as Habsent.
  { intros p s Hp. rewrite delete_file_run. by rewrite bool_decide_eq_false_2. }
  assert (∀ p s, p ∉ fs (snd (delete_file p s))) as Hgone.
  { intros p s. rewrite delete_file_run. cbn [snd].
    case_bool_decide; cbn [fs]; set_solver. }
  assert (∀ p s, fs (snd (delete_file p s)) = fs s ∖ {[p]}) as Hfs.
  { intros p s. rewrite delete_file_run. cbn [snd].
    case_bool_decide; cbn [fs]; set_solver. }
  repeat split.
  - intros Hp. unfold os_remove. rewrite bool_decide_eq_false_2 by done. eauto.
  - by rewrite delete_file_run.
  - apply Hfs.
  - apply Habsent.
  - apply Habsent, Hgone.
  - by rewrite cleanup_files_run.
  - apply cleanup_files_fs.
  - intros Hmp3 Hwav. rewrite cleanup_files_run.
    rewrite (Habsent _ _ Hmp3). cbn [snd]. by rewrite (Habsent _ _ Hwav).
  - rewrite (cleanup_files_run (snd _)). f_equal.
    rewrite cleanup_files_run. cbn [snd].
    rewrite (Habsent "downloaded_audio.mp3").
    + cbn [snd]. rewrite (Habsent "converted_audio.wav"); [done | apply Hgone].
    + rewrite Hfs. pose proof (Hgone "downloaded_audio.mp3" st). set_solver.
Qed.

(** The guard at work on an empty directory. *)
Lemma cleanup_guarded_and_idempotent_witness :
  (∃ e st', os_remove "converted_audio.wav" (initial ∅) = (Raise e, st')) ∧
  delete_file "converted_audio.wav" (initial ∅) = (Ok tt, initial ∅) ∧
  cleanup_files (initial ∅) = (Ok tt, initial ∅).
Proof.
  pose proof (cleanup_guarded_and_idempotent "converted_audio.wav" (initial ∅))
    as (Hraise & _ & _ & Hdel & _ & _ & _ & Hclean & _).
  split; [|split].
  - apply Hraise. cbn [fs initial]. set_solver.
  - apply Hdel. cbn [fs initial]. set_solver.
  - apply Hclean; cbn [fs initial]; set_solver.
Defined.

(** * The adapters *)

Lemma str_truthy_spec s : str_truthy s = true ↔ s ≠ "".
Proof.
  unfold str_truthy. destruct (String.eqb_spec s ""); cbn; split; intros; congruence.
Qed.

Lemma strip_empty : strip "" = "".
Proof. reflexivity. Qed.

(** **** C7. [summarize_text] sends the model one request, whose single
    user message is ["Summarize this: "] followed by the transcript.
    When the response carries a message with a string content it returns
    that content with the whitespace of both ends removed (and nothing
    else); when the call raises it reports the error and returns [None];
    and in every case it returns normally: a string, or [None] after an
    error report. *)
Theorem summarize_text_contract (w : world) (text model : string) (st : state) :
  summarize_prompt text = [Message "user" ("Summarize this: " +:+ text)] ∧
  (∀ d m c,
     chat w model (summarize_prompt text) = Ok (PyDict d) →
     d !! "message" = Some (PyDict m) →
     m !! "content" = Some (PyStr c) →
     summarize_text w text model st =
       (Ok (Some (strip c)), log (OllamaChat model (summarize_prompt text)) st) ∧
     ∃ l r, list_ascii_of_string c = l ++ list_ascii_of_string (strip c) ++ r ∧
            blank l ∧ blank r ∧ trimmed (list_ascii_of_string (strip c))) ∧
  (∀ e,
     chat w model (summarize_prompt text) = Raise e →
     summarize_text w text model st =
       (Ok None,
        State (fs st)
              (trace st ++ [OllamaChat model (summarize_prompt text);
                            StError ("❌ Failed to summarize: " +:+ exn_str e)])
              (reads st))) ∧
  ((∃ summary,
      summarize_text w text model st =
        (Ok (Some summary), log (OllamaChat model (summarize_prompt text)) st)) ∨
   (∃ e,
      summarize_text w text model st =
        (Ok None,
         State (fs st)
               (trace st ++ [OllamaChat model (summarize_prompt text);
                             StError ("❌ Failed to summarize: " +:+ exn_str e)])
               (reads st)))).
Proof.
  split; [reflexivity|]. split; [|split].
  - intros d m c H Hd Hm. split.
    + by apply summarize_text_content with d m.
    + apply strip_spec.
  - intros e H. by apply summarize_text_raise.
  - apply summarize_text_cases.
Qed.

(** A summary is trimmed; a failing model gives [None]. *)
Lemma summarize_text_contract_witness :
  summarize_text world_ok " All right, so here we are." "llama3.2:latest"
      (initial ∅)
    = (Ok (Some "The first video on YouTube."),
       State ∅ [OllamaChat "llama3.2:latest"
                  (summarize_prompt " All right, so here we are.")] 0) ∧
  summarize_text world_no_summary " All right, so here we are." "llama3.2:latest"
      (initial ∅)
    = (Ok None,
       State ∅ [OllamaChat "llama3.2:latest"
                  (summarize_prompt " All right, so here we are.");
                StError "❌ Failed to summarize: model runner has stopped"] 0).
Proof.
  split.
  - refine (proj1 (proj1 (proj2 (summarize_text_contract world_ok _ _ _))
                     _ _ ("  The first video on YouTube." +:+ newline) _ _ _));
      vm_compute; reflexivity.
  - refine (proj1 (proj2 (proj2 (summarize_text_contract world_no_summary _ _ _)))
              (Exn "ResponseError" "model runner has stopped") _).
    reflexivity.
Defined.

(** The result page, for either kind of summary. *)
Lemma render_result_run url summary elapsed st :
  ∃ delta,
    render_result url summary elapsed st =
      (Ok tt,
       State (fs st)
             (trace st ++ [StColumns [1; 1]; StVideo url; StHeader "📜 Summary"]
                ++ delta)
             (reads st)) ∧
    (summary = None ∨ summary = Some "" →
     delta = [StError "❌ Summary generation failed."]) ∧
    (∀ s, summary = Some s → s ≠ "" →
     delta = [StSuccess s; StWriteProcessingTime elapsed]).
Proof.
  destruct summary as [s|]; [destruct (str_truthy s) eqn:Hs|].
  - exists [StSuccess s; StWriteProcessingTime elapsed].
    split; [step; rewrite Hs; run|]. split.
    + apply str_truthy_spec in Hs. intros [?|[= ?]]; [discriminate | congruence].
    + by intros ? [= <-] _.
  - exists [StError "❌ Summary generation failed."].
    split; [step; rewrite Hs; run|]. split; [done|].
    intros ? [= <-] Hne. apply str_truthy_spec in Hne. congruence.
  - exists [StError "❌ Summary generation failed."].
    split; [run|]. split; [done | discriminate].
Qed.

(** **** C9. When the model call succeeds but the response has no
    message, or a message without content, [summarize_text] returns the
    empty string, not [None].  The orchestrator passes whatever
    [summarize_text] returned to the result page, which treats [None] and
    the empty string alike: after the video and the heading it shows the
    summary-generation-failure message and nothing else, and it shows the
    summary (followed by the processing time) exactly when the string is
    non-empty. *)
Theorem empty_summary_is_failure (w : world) :
  (∀ text model st d,
     chat w model (summarize_prompt text) = Ok (PyDict d) →
     d !! "message" = None ∨
       (∃ m, d !! "message" = Some (PyDict m) ∧ m !! "content" = None) →
     summarize_text w text model st =
       (Ok (Some ""), log (OllamaChat model (summarize_prompt text)) st)) ∧
  (∀ url t0 st summary st4,
     summarized w url st summary st4 →
     pipeline w url t0 st =
       (render_result url summary (PrimFloat.sub (clock w (reads st4)) t0);;
        cleanup_files) (tick w st4)) ∧
  (∀ url summary elapsed st,
     ∃ delta,
       render_result url summary elapsed st =
         (Ok tt,
          State (fs st)
                (trace st ++ [StColumns [1; 1]; StVideo url; StHeader "📜 Summary"]
                   ++ delta)
                (reads st)) ∧
       (summary = None ∨ summary = Some "" →
        delta = [StError "❌ Summary generation failed."]) ∧
       (∀ s, summary = Some s → s ≠ "" →
        delta = [StSuccess s; StWriteProcessingTime elapsed])).
Proof.
  split; [|split].
  - intros text model st d H Hmiss. step. rewrite H. cbn [py_get].
    destruct Hmiss as [->|(m & -> & Hm)]; cbn [from_option id py_get];
      rewrite ?lookup_empty, ?Hm; cbn [from_option id py_strip];
      rewrite strip_empty; run.
  - intros. by apply pipeline_summarized.
  - apply render_result_run.
Qed.

(** A response without a message gives the empty summary. *)
Lemma empty_summary_is_failure_witness :
  summarize_text world_bare_reply " All right, so here we are." "llama3.2:latest"
      (initial ∅)
    = (Ok (Some ""),
       State ∅ [OllamaChat "llama3.2:latest"
                  (summarize_prompt " All right, so here we are.")] 0).
Proof.
  refine (proj1 (empty_summary_is_failure world_bare_reply) _ _ _
            {[ "model" := PyStr "llama3.2:latest"; "done" := PyBool true ]} _ _).
  - reflexivity.
  - left. vm_compute. reflexivity.
Defined.

(** **** C8. Once the path is settled, [transcribe_audio] loads the
    model tier ["small"], transcribes that path, and returns the entry
    ["text"] of the result when there is one; when the result is [None]
    or has no such entry it reports a transcription failure and returns
    [None]. *)
Theorem transcribe_audio_contract (w : world) (file_path : string) (st : state)
    (p1 : string) (st1 : state) (u : unit)
    (result : option (gmap string string)) :
  resolved w file_path st p1 st1 →
  load_model w "small" = Ok u →
  transcribe w p1 = Ok result →
  (∀ d text,
     result = Some d → d !! "text" = Some text →
     transcribe_audio w file_path st =
       (Ok (Some text),
        State (fs st1)
              (trace st1 ++ [WhisperLoadModel "small"; WhisperTranscribe p1;
                             StSuccess "✅ Transcription Complete!"])
              (reads st1))) ∧
  (result = None ∨ (∃ d, result = Some d ∧ d !! "text" = None) →
   transcribe_audio w file_path st =
     (Ok None,
      State (fs st1)
            (trace st1 ++ [WhisperLoadModel "small"; WhisperTranscribe p1;
                           StError "❌ Transcription failed."])
            (reads st1))).
Proof.
  intros Hres Hload Hrun. split.
  - intros d text -> Htext. by eapply transcribe_audio_found.
  - intros Hmiss. by eapply transcribe_audio_missing.
Qed.

(** A waveform file with a text, and one without. *)
Lemma transcribe_audio_contract_witness :
  transcribe_audio world_ok "talk.wav" (initial ∅)
    = (Ok (Some " All right, so here we are."),
       State ∅ [StSuccess "✅ Transcribing Audio Using Whisper...";
                WhisperLoadModel "small"; WhisperTranscribe "talk.wav";
                StSuccess "✅ Transcription Complete!"] 0) ∧
  transcribe_audio world_no_text "talk.wav" (initial ∅)
    = (Ok None,
       State ∅ [StSuccess "✅ Transcribing Audio Using Whisper...";
                WhisperLoadModel "small"; WhisperTranscribe "talk.wav";
                StError "❌ Transcription failed."] 0).
Proof.
  split.
  - refine (proj1 (transcribe_audio_contract world_ok "talk.wav" (initial ∅)
                     "talk.wav"
                     (log (StSuccess "✅ Transcribing Audio Using Whisper...")
                          (initial ∅)) tt _ _ _ _) _ _ eq_refl _).
    + left. repeat split; reflexivity.
    + reflexivity.
    + reflexivity.
    + vm_compute. reflexivity.
  - refine (proj2 (transcribe_audio_contract world_no_text "talk.wav" (initial ∅)
                     "talk.wav"
                     (log (StSuccess "✅ Transcribing Audio Using Whisper...")
                          (initial ∅)) tt _ _ _ _) _).
    + left. repeat split; reflexivity.
    + reflexivity.
    + reflexivity.
    + right. eexists. split; [reflexivity | vm_compute; reflexivity].
Defined.

(** [transcribe_audio] is the announcement, the conversion when the
    path asks for one, and the recognition. *)
Lemma transcribe_audio_split w file_path :
  transcribe_audio w file_path =
    (emit (StSuccess "✅ Transcribing Audio Using Whisper...");;
     path ← (if negb (endswith file_path ".wav")
             then convert_audio w file_path
             else mret file_path);
     recognize w path).
Proof. reflexivity. Qed.

(** The recognition never runs the conversion executable. *)
Lemma recognize_quiet w path :
  emits (λ ev, ¬ is_conversion ev) (recognize w path).
Proof. unfold recognize. emits_go; intros [? [=]]. Qed.

(** **** C4. On a path ending in [".wav"] [transcribe_audio] never calls
    the conversion executable.  On any other path it calls it exactly
    once, on that path, right after announcing the transcription and
    before anything else: no call into the speech model comes before it,
    and no second conversion after it. *)
Theorem conversion_only_when_needed (w : world) (file_path : string) (st : state) :
  ∃ delta,
    trace (snd (transcribe_audio w file_path st)) = trace st ++ delta ∧
    if endswith file_path ".wav"
    then Forall (λ ev, ¬ is_conversion ev) delta
    else ∃ rest,
      delta = [StSuccess "✅ Transcribing Audio Using Whisper...";
               SubprocessRun (ffmpeg_command file_path "converted_audio.wav")]
              ++ rest ∧
      Forall (λ ev, ¬ is_conversion ev) rest.
Proof.
  rewrite transcribe_audio_split.
  cbv beta iota zeta delta [mbind M_bind emit negb].
  destruct (endswith file_path ".wav") eqn:Hext.
  - cbv beta iota zeta delta [mret M_ret].
    destruct (recognize_quiet w file_path
                (log (StSuccess "✅ Transcribing Audio Using Whisper...") st))
      as (delta & Ht & HP).
    exists (StSuccess "✅ Transcribing Audio Using Whisper..." :: delta). split.
    + rewrite Ht. cbn [log trace]. by flat.
    + constructor; [intros [? [=]] | done].
  - destruct (subprocess_run w (ffmpeg_command file_path "converted_audio.wav"))
      as [cp|e] eqn:Hsub;
      [destruct (Z.eq_dec (returncode cp) 0%Z) as [Hrc|Hrc]|].
    + rewrite (convert_audio_ok _ _ _ _ Hsub Hrc).
      match goal with
      | |- context [recognize w ?p ?s] =>
          destruct (recognize_quiet w p s) as (delta & Ht & HP)
      end.
      eexists. split; [rewrite Ht; cbn [log trace]; flat; reflexivity|].
      by exists delta.
    + rewrite (convert_audio_failed _ _ _ _ Hsub Hrc). cbn [snd trace log].
      eexists. split; [flat; reflexivity|].
      eexists. split; [reflexivity|]. repeat constructor. intros [? [=]].
    + rewrite (convert_audio_raise _ _ _ _ Hsub). cbn [snd trace log].
      eexists. split; [flat; reflexivity|].
      exists []. split; [reflexivity | constructor].
Qed.

(** * The pipeline *)

Lemma greeting_not_summary text : greeting ≠ summarize_prompt text.
Proof. unfold greeting, summarize_prompt. intros [=]. Qed.

Lemma summarize_prompt_inj text text' :
  summarize_prompt text = summarize_prompt text' → text = text'.
Proof. unfold summarize_prompt. by intros [=]. Qed.

(** Settles that an event which is plainly something else is no
    conversion, no use of the speech model and no summarisation. *)
Ltac other_event :=
  repeat split;
  [ intros [? [=]]
  | intros [[? [=]]|[? [=]]]
  | intros (? & ? & [= ? Hprompt]); try by apply greeting_not_summary in Hprompt ].

Ltac other_events := repeat (constructor; [other_event|]); try constructor.

(** **** C3. When the greeting call to the language model raises,
    [initialize_model] reports the error and returns [None]: nothing
    propagates.  The orchestrator then returns at once: after a
    successful download the run ends in the state [initialize_model]
    left, [main] returns normally, and the whole run contains no
    conversion, no use of the speech model and no summarisation
    request. *)
Theorem model_failure_halts (w : world) (e : exn) :
  chat w "llama3.2:latest" greeting = Raise e →
  (∀ st,
     initialize_model w st =
       (Ok None,
        State (fs st)
              (trace st ++ [OllamaChat "llama3.2:latest" greeting;
                            StError ("❌ Ollama Model failed: " +:+ exn_str e)])
              (reads st))) ∧
  (∀ url t0 st path st1,
     download_video w url (log (StSuccess "✅ Downloading Audio...") st)
       = (Ok path, st1) →
     pipeline w url t0 st =
       (Ok tt,
        State (fs st1)
              (trace st1 ++ [StInfo "🔄 Initializing AI Model...";
                             OllamaChat "llama3.2:latest" greeting;
                             StError ("❌ Ollama Model failed: " +:+ exn_str e)])
              (reads st1))) ∧
  (∀ st,
     fst (main w st) = Ok tt ∧
     ∃ delta,
       trace (snd (main w st)) = trace st ++ delta ∧
       Forall (λ ev, ¬ is_conversion ev ∧ ¬ is_transcription ev ∧
                     ¬ is_summarization ev) delta).
Proof.
  intros Hchat. split; [|split].
  - intros st. by apply initialize_model_raise.
  - intros url t0 st path st1 Hdl.
    rewrite (pipeline_model_none w url t0 st path st1 _ Hdl
               (initialize_model_raise w _ e Hchat)).
    cbn [log fs trace reads]. by flat.
  - intros st. split; [apply main_total|].
    destruct (button_clicked w && str_truthy (text_input_value w)) eqn:Hgo.
    + destruct (extract_info w (text_input_value w)) as [info|e'] eqn:Hinfo.
      * rewrite (main_returned w st _ Hgo
                   (pipeline_model_none w _ _ _ _ _ _
                      (download_video_ok w _ _ _ Hinfo)
                      (initialize_model_raise w _ e Hchat))).
        cbn [snd log entered tick fs trace reads]. flat.
        eexists. split; [reflexivity|].
        apply Forall_app. split; [unfold page|]; other_events.
      * rewrite (main_caught w st _ _ Hgo
                   (pipeline_download_raise w _ _ _ _ _
                      (download_video_raise w _ _ _ Hinfo))).
        cbn [snd log entered tick fs trace reads]. flat.
        eexists. split; [reflexivity|].
        apply Forall_app. split; [unfold page|unfold report]; other_events.
    + rewrite (main_idle w st Hgo). cbn [snd trace].
      eexists. split; [reflexivity|]. unfold page. other_events.
Qed.

(** With the language model out of reach the run stops after the
    greeting. *)
Lemma model_failure_halts_witness :
  main world_ollama_down (initial ∅) =
    (Ok tt,
     State {["downloaded_audio.webm"]}
           (page ++
            [TimeTime 100.5%float;
             StSuccess "✅ Downloading Audio...";
             YdlExtractInfo ydl_opts sample_url;
             StInfo "🔄 Initializing AI Model...";
             OllamaChat "llama3.2:latest" greeting;
             StError "❌ Ollama Model failed: Failed to connect to Ollama."])
           1).
Proof.
  pose proof (model_failure_halts world_ollama_down
                (Exn "ConnectionError" "Failed to connect to Ollama.") eq_refl)
    as (_ & Hpipe & _).
  rewrite (main_returned world_ollama_down (initial ∅) _ eq_refl
             (Hpipe _ _ _ _ _ (download_video_ok world_ollama_down _ _ _ eq_refl))).
  vm_compute. reflexivity.
Defined.

(** **** C2. When the conversion subprocess exits with a non-zero
    status, [convert_audio] shows its standard error to the user and
    raises.  [transcribe_audio] lets the error through without loading
    the speech model or transcribing, and the run is over: [main]
    reports the error and nothing follows.  No event of the whole run is
    a use of the speech model. *)
Theorem conversion_failure_aborts (w : world) (input_path : string)
    (cp : completed_process) :
  subprocess_run w (ffmpeg_command input_path "converted_audio.wav") = Ok cp →
  returncode cp ≠ 0%Z →
  (∀ st,
     convert_audio w input_path st =
       (Raise (Exn "RuntimeError" "FFmpeg conversion failed"),
        State (fs st ∪ subprocess_files w
                         (ffmpeg_command input_path "converted_audio.wav"))
              (trace st ++
                 [SubprocessRun (ffmpeg_command input_path "converted_audio.wav");
                  StError ("❌ FFmpeg conversion failed:" +:+ newline
                           +:+ stderr cp)])
              (reads st))) ∧
  (endswith input_path ".wav" = false →
   (∀ st,
      transcribe_audio w input_path st =
        (Raise (Exn "RuntimeError" "FFmpeg conversion failed"),
         State (fs st ∪ subprocess_files w
                          (ffmpeg_command input_path "converted_audio.wav"))
               (trace st ++
                  [StSuccess "✅ Transcribing Audio Using Whisper...";
                   SubprocessRun (ffmpeg_command input_path "converted_audio.wav");
                   StError ("❌ FFmpeg conversion failed:" +:+ newline
                            +:+ stderr cp)])
               (reads st))) ∧
   (∀ st info,
      button_clicked w && str_truthy (text_input_value w) = true →
      extract_info w (text_input_value w) = Ok info →
      prepare_filename ydl_opts info = input_path →
      (∀ e, chat w "llama3.2:latest" greeting ≠ Raise e) →
      ∃ delta,
        main w st =
          (Ok tt,
           State (fs st ∪ {[input_path]} ∪
                  subprocess_files w
                    (ffmpeg_command input_path "converted_audio.wav"))
                 (trace st ++ delta ++
                    [SubprocessRun (ffmpeg_command input_path "converted_audio.wav");
                     StError ("❌ FFmpeg conversion failed:" +:+ newline
                              +:+ stderr cp);
                     StError "❌ Error: FFmpeg conversion failed"])
                 (S (reads st))) ∧
        Forall (λ ev, ¬ is_transcription ev) delta)).
Proof.
  intros Hsub Hrc.
  split; [|intros Hext; split].
  - intros st. by apply convert_audio_failed.
  - intros st.
    rewrite (transcribe_audio_convert_raise w input_path st _ _ Hext
               (convert_audio_failed w _ _ _ Hsub Hrc)).
    cbn [log fs trace reads]. by flat.
  - intros st info Hgo Hinfo <- Hup.
    destruct (chat w "llama3.2:latest" greeting) as [response|e] eqn:Hchat;
      [|by destruct (Hup e)].
    pose proof (download_video_ok w _
                  (log (StSuccess "✅ Downloading Audio...") (entered w st))
                  _ Hinfo) as Hdl.
    pose proof (initialize_model_ok w
                  (log (StInfo "🔄 Initializing AI Model...")
                     (State (fs (log (StSuccess "✅ Downloading Audio...")
                                   (entered w st))
                             ∪ {[prepare_filename ydl_opts info]})
                            (trace (log (StSuccess "✅ Downloading Audio...")
                                      (entered w st))
                             ++ [YdlExtractInfo ydl_opts (text_input_value w)])
                            (reads (log (StSuccess "✅ Downloading Audio...")
                                      (entered w st)))))
                  _ Hchat) as Hinit.
    rewrite (main_caught w st _ _ Hgo
               (pipeline_transcribe_raise w _ _ _ _ _ _ _ _
                  (ex_intro _ _ (conj Hdl (conj Hinit eq_refl)))
                  (transcribe_audio_convert_raise w _ _ _ _ Hext
                     (convert_audio_failed w _ _ _ Hsub Hrc)))).
    unfold log, entered, tick, report. cbn [fs trace reads exn_str]. flat.
    exists (page ++
            [TimeTime (clock w (reads st));
             StSuccess "✅ Downloading Audio...";
             YdlExtractInfo ydl_opts (text_input_value w);
             StInfo "🔄 Initializing AI Model...";
             OllamaChat "llama3.2:latest" greeting] ++
            (if py_truthy response
             then [StSuccess "✅ Model loaded successfully!"] else []) ++
            [StInfo "🎙️ Transcribing Audio...";
             StSuccess "✅ Transcribing Audio Using Whisper..."]).
    split.
    + do 2 f_equal. destruct (py_truthy response);
        rewrite <- ?app_assoc; reflexivity.
    + apply Forall_app. split; [unfold page|];
        [|destruct (py_truthy response); cbn [app]];
        repeat (constructor; [intros [[? [=]]|[? [=]]]|]); constructor.
Qed.

(** The rejected mp3 download: the run ends on the two error messages. *)
Lemma conversion_failure_aborts_witness :
  ∃ delta,
    main world_ffmpeg_fails (initial ∅) =
      (Ok tt,
       State (∅ ∪ {["downloaded_audio.mp3"]} ∪ ∅)
             ([] ++ delta ++
                [SubprocessRun (ffmpeg_command "downloaded_audio.mp3"
                                               "converted_audio.wav");
                 StError ("❌ FFmpeg conversion failed:" +:+ newline +:+
                          "downloaded_audio.mp3: Invalid data found when processing input");
                 StError "❌ Error: FFmpeg conversion failed"])
             1) ∧
    Forall (λ ev, ¬ is_transcription ev) delta.
Proof.
  refine (proj2 (proj2 (conversion_failure_aborts world_ffmpeg_fails
                          "downloaded_audio.mp3"
                          (CompletedProcess 1 ""
                             "downloaded_audio.mp3: Invalid data found when processing input")
                          eq_refl _) eq_refl)
            (initial ∅) (InfoDict "mp3") eq_refl eq_refl eq_refl _).
  - discriminate.
  - intros e. discriminate.
Defined.

(** Splits [emits P m] for the orchestrator, down to its events. *)
Ltac emits_script :=
  repeat first
    [ emits_step
    | apply download_video_emits
    | apply initialize_model_emits
    | apply transcribe_audio_emits
    | apply summarize_text_emits
    | apply render_result_emits
    | apply cleanup_files_emits ].

(** Every summarisation request of a run carries a non-empty text
    that [transcribe_audio] returned for a downloaded file. *)
Lemma main_summarizes_transcript (w : world) :
  emits (λ ev, ∀ model text,
           ev = OllamaChat model (summarize_prompt text) →
           text ≠ "" ∧
           ∃ url path st0 st0' st1 st2,
             download_video w url st0 = (Ok path, st0') ∧
             transcribe_audio w path st1 = (Ok (Some text), st2))
        (main w).
Proof.
  unfold main, pipeline, set_background, st_text_input, st_button.
  emits_script; intros;
    match goal with Heq : _ = OllamaChat _ (summarize_prompt _) |- _ =>
      try discriminate Heq; injection Heq as _ Hprompt
    end.
  match type of Hprompt with _ +:+ ?t = _ +:+ ?t' => change (t = t') in Hprompt end.
  subst. split; [|eauto 10].
    apply str_truthy_spec.
    match goal with H : negb (str_truthy _) = false |- _ =>
      by apply negb_false_iff in H end.
Qed.

(** **** C1. In every run, each request to summarise carries a text
    that is not empty and that [transcribe_audio] returned for the
    downloaded file: the summarisation is never invoked on an empty or
    absent transcript.
    A run whose transcription is the empty string returns at once, in
    the state [transcribe_audio] left, before the Summarizing step. *)
Theorem summary_needs_transcript (w : world) :
  (∀ st, ∃ delta,
     trace (snd (main w st)) = trace st ++ delta ∧
     ∀ model text,
       OllamaChat model (summarize_prompt text) ∈ delta →
       text ≠ "" ∧
       ∃ url path st0 st0' st1 st2,
         download_video w url st0 = (Ok path, st0') ∧
         transcribe_audio w path st1 = (Ok (Some text), st2)) ∧
  (∀ url t0 st path model st2 transcription st3,
     reaches_transcribing w url st path model st2 →
     transcribe_audio w path (log (StInfo "🎙️ Transcribing Audio...") st2)
       = (Ok transcription, st3) →
     transcription = None ∨ transcription = Some "" →
     pipeline w url t0 st = (Ok tt, st3)).
Proof.
  split.
  - intros st. destruct (main_summarizes_transcript w st) as (delta & Ht & HP).
    exists delta. split; [done|]. intros model text Hin.
    exact (proj1 (Forall_forall _ _) HP _ Hin model text eq_refl).
  - intros url t0 st path model st2 transcription st3 Hreach Hrun Hfalsy.
    apply (pipeline_transcribe_falsy w url t0 st path model st2 transcription st3);
      [done..|].
    by destruct Hfalsy as [->| ->].
Qed.

(** The silent waveform file: the run stops after the transcription;
    and in the good world the one summarisation request carries the
    transcript. *)
Lemma summary_needs_transcript_witness :
  pipeline world_silent sample_url 100.5%float (entered world_silent (initial ∅))
    = (Ok tt,
       State {["downloaded_audio.wav"]}
             (page ++
              [TimeTime 100.5%float;
               StSuccess "✅ Downloading Audio...";
               YdlExtractInfo ydl_opts sample_url;
               StInfo "🔄 Initializing AI Model...";
               OllamaChat "llama3.2:latest" greeting;
               StSuccess "✅ Model loaded successfully!";
               StInfo "🎙️ Transcribing Audio...";
               StSuccess "✅ Transcribing Audio Using Whisper...";
               WhisperLoadModel "small";
               WhisperTranscribe "downloaded_audio.wav";
               StSuccess "✅ Transcription Complete!"])
             1).
Proof.
  refine (proj2 (summary_needs_transcript world_silent)
            sample_url 100.5%float (entered world_silent (initial ∅))
            "downloaded_audio.wav" "llama3.2:latest"
            (snd (initialize_model world_silent
                    (log (StInfo "🔄 Initializing AI Model...")
                       (snd (download_video world_silent sample_url
                               (log (StSuccess "✅ Downloading Audio...")
                                  (entered world_silent (initial ∅))))))))
            (Some "") _ _ _ _).
  - eexists. split; [|split]; vm_compute; reflexivity.
  - vm_compute. reflexivity.
  - by right.
Defined.

(** * Done *)

Lemma delete_file_reads path st : reads (snd (delete_file path st)) = reads st.
Proof. rewrite delete_file_run. cbn [snd]. by case_bool_decide. Qed.

(** A run that got its summary, or its [None], ends as follows: the
    clock is read, the result page is shown, the candidate files are
    removed.  Nothing else happens, and [main] returns. *)
Lemma main_done (w : world) (st : state) (summary : option string) (st4 : state) :
  button_clicked w && str_truthy (text_input_value w) = true →
  summarized w (text_input_value w) (entered w st) summary st4 →
  ∃ shown removed,
    main w st =
      (Ok tt,
       State (fs st4 ∖ {["downloaded_audio.mp3"; "converted_audio.wav"]})
             (trace st4 ++
                [TimeTime (clock w (reads st4)); StColumns [1; 1];
                 StVideo (text_input_value w); StHeader "📜 Summary"]
                ++ shown ++ removed)
             (S (reads st4))) ∧
    (summary = None ∨ summary = Some "" →
     shown = [StError "❌ Summary generation failed."]) ∧
    (∀ s, summary = Some s → s ≠ "" →
     shown = [StSuccess s;
              StWriteProcessingTime
                (PrimFloat.sub (clock w (reads st4)) (clock w (reads st)))]) ∧
    Forall (λ ev, ∃ path, ev = OsRemove path) removed.
Proof.
  intros Hgo Hsum.
  destruct (render_result_run (text_input_value w) summary
              (PrimFloat.sub (clock w (reads st4)) (clock w (reads st)))
              (tick w st4)) as (shown & Hshow & Hfail & Hok).
  pose proof (pipeline_summarized w _ (clock w (reads st)) _ _ _ Hsum) as Hpipe.
  unfold mbind at 1, M_bind in Hpipe. rewrite Hshow in Hpipe.
  match type of Hpipe with _ = cleanup_files ?s =>
    destruct (cleanup_files_emits (λ ev, ∃ path, ev = OsRemove path)
                (λ path, ex_intro _ path eq_refl) s) as (removed & Htr & Hrem);
    pose proof (cleanup_files_fs s) as Hfs;
    pose proof (cleanup_files_run s) as Hrun
  end.
  rewrite Hrun in Hpipe, Htr, Hfs. cbn [snd] in Htr, Hfs.
  exists shown, removed. split; [|done].
  rewrite (main_returned w st _ Hgo Hpipe).
  match goal with |- (_, ?final) = _ =>
    rewrite <- (state_eta final), Hfs, Htr, !delete_file_reads
  end.
  unfold tick. cbn [fs trace reads]. by rewrite <- !app_assoc.
Qed.

(** **** C6, as the code has it.  The clock is read when the [try]
    block is entered, just before the download is announced, and again
    as soon as [summarize_text] has returned; the difference of the two
    readings is the processing time.  It is shown, after the summary,
    when the summary is a non-empty string, and it is the only time
    shown; when the summary is [None] or empty the failure message is
    shown and no time. *)
Theorem elapsed_time_reported_with_summary (w : world) (st : state)
    (summary : option string) (st4 : state) :
  button_clicked w && str_truthy (text_input_value w) = true →
  summarized w (text_input_value w) (entered w st) summary st4 →
  trace (log (StSuccess "✅ Downloading Audio...") (entered w st)) =
    trace st ++ page ++ [TimeTime (clock w (reads st));
                         StSuccess "✅ Downloading Audio..."] ∧
  ∃ delta,
    trace (snd (main w st)) =
      trace st4 ++ [TimeTime (clock w (reads st4))] ++ delta ∧
    (∀ s, summary = Some s → s ≠ "" →
       StSuccess s ∈ delta ∧
       ∀ t, StWriteProcessingTime t ∈ delta ↔
            t = PrimFloat.sub (clock w (reads st4)) (clock w (reads st))) ∧
    (summary = None ∨ summary = Some "" →
       StError "❌ Summary generation failed." ∈ delta ∧
       ∀ t, StWriteProcessingTime t ∉ delta).
Proof.
  intros Hgo Hsum. split.
  { unfold log, entered, tick. cbn [fs trace reads]. by rewrite <- !app_assoc. }
  destruct (main_done w st summary st4 Hgo Hsum)
    as (shown & removed & Hmain & Hfail & Hok & Hrem).
  exists ([StColumns [1; 1]; StVideo (text_input_value w); StHeader "📜 Summary"]
          ++ shown ++ removed).
  split; [by rewrite Hmain|].
  assert (∀ t, StWriteProcessingTime t ∉ removed) as Hclean.
  { intros t Hin. by destruct (proj1 (Forall_forall _ _) Hrem _ Hin) as [? [=]]. }
  split.
  - intros s -> Hs. rewrite (Hok s eq_refl Hs). split; [set_solver|].
    intros t. split.
    + intros Hin. repeat (apply elem_of_app in Hin as [Hin|Hin]);
        [set_solver.. | by destruct (Hclean t)].
    + intros ->. set_solver.
  - intros Hnone. rewrite (Hfail Hnone). split; [set_solver|].
    intros t Hin. repeat (apply elem_of_app in Hin as [Hin|Hin]);
      [set_solver.. | by destruct (Hclean t)].
Qed.

(** The run of the good world reaches the end of the Summarizing step. *)
Lemma world_ok_summarized :
  summarized world_ok sample_url (entered world_ok (initial ∅))
    (Some "The first video on YouTube.")
    (sample_summarized world_ok).
Proof.
  exists "llama3.2:latest", " All right, so here we are.". eexists. split.
  - exists "downloaded_audio.webm". eexists. split; [|split].
    + eexists. split; [|split]; [vm_compute; reflexivity..|reflexivity].
    + vm_compute; reflexivity.
    + reflexivity.
  - vm_compute; reflexivity.
Defined.

(** In the good world 30.25 seconds are reported. *)
Lemma elapsed_time_reported_with_summary_witness :
  ∃ delta,
    trace (snd (main world_ok (initial ∅))) =
      trace (sample_summarized world_ok) ++ [TimeTime 130.75%float] ++ delta ∧
    StWriteProcessingTime 30.25%float ∈ delta.
Proof.
  destruct (elapsed_time_reported_with_summary world_ok (initial ∅) _ _
              eq_refl world_ok_summarized) as (_ & delta & Htrace & Hok & _).
  exists delta. split; [exact Htrace|].
  destruct (Hok "The first video on YouTube." eq_refl) as (_ & Htime);
    [discriminate|].
  apply Htime. vm_compute. reflexivity.
Defined.

(** The run of [world_no_summary] reaches the end of the Summarizing
    step, with [None] for a summary, and reports no time. *)
Lemma elapsed_time_unreported_on_failure :
  summarized world_no_summary sample_url
    (entered world_no_summary (initial ∅)) None
    (sample_summarized world_no_summary)
  ∧ StError "❌ Summary generation failed."
      ∈ trace (snd (main world_no_summary (initial ∅)))
  ∧ ¬ ∃ elapsed,
        StWriteProcessingTime elapsed
          ∈ trace (snd (main world_no_summary (initial ∅))).
Proof.
  split; [|split].
  - exists "llama3.2:latest", " All right, so here we are.". eexists. split.
    + exists "downloaded_audio.webm". eexists. split; [|split].
      * eexists. split; [|split]; [vm_compute; reflexivity..|reflexivity].
      * vm_compute; reflexivity.
      * reflexivity.
    + vm_compute; reflexivity.
  - apply list_elem_of_In. vm_compute. tauto.
  - intros [elapsed Hin]. apply list_elem_of_In in Hin. vm_compute in Hin.
    repeat (destruct Hin as [Hin|Hin]; [discriminate Hin|]). exact Hin.
Qed.

(** On the Done path the candidate files are gone afterwards. *)
Lemma done_path_cleans (w : world) (st : state) (summary : option string)
    (st4 : state) :
  button_clicked w && str_truthy (text_input_value w) = true →
  summarized w (text_input_value w) (entered w st) summary st4 →
  fs (snd (main w st)) =
    fs st4 ∖ {["downloaded_audio.mp3"; "converted_audio.wav"]}.
Proof.
  intros Hgo Hsum.
  destruct (main_done w st summary st4 Hgo Hsum) as (? & ? & -> & _).
  reflexivity.
Qed.

(** **** C5, where the code departs from it.  An mp3 download that the
    conversion executable rejects: the exception reaches the handler of
    [main], which reports it, and the script ends without a single
    deletion: [cleanup_files] is skipped, the two deletions that close
    the script look for the webm and the wav file, and
    ["downloaded_audio.mp3"] is left behind.  The same download with a
    successful conversion reaches Done and leaves nothing. *)
Theorem exception_skips_cleanup :
  fst (script world_ffmpeg_fails (initial ∅)) = Ok tt ∧
  last (trace (snd (script world_ffmpeg_fails (initial ∅))))
    = Some (StError "❌ Error: FFmpeg conversion failed") ∧
  Forall (λ ev, ∀ path, ev ≠ OsRemove path)
         (trace (snd (script world_ffmpeg_fails (initial ∅)))) ∧
  fs (snd (script world_ffmpeg_fails (initial ∅))) = {["downloaded_audio.mp3"]} ∧
  fs (snd (script (with_download (Ok (InfoDict "mp3")) world_ok) (initial ∅))) = ∅.
Proof.
  split; [vm_compute; reflexivity|].
  split; [vm_compute; reflexivity|].
  split; [|split; vm_compute; reflexivity].
  vm_compute. repeat (constructor; [discriminate|]). constructor.
Qed.

(** * The filesystem over a whole run *)

Lemma bind_ok {A B} (m : M A) (f : A → M B) st a st' :
  m st = (Ok a, st') → (m ≫= f) st = f a st'.
Proof. intros H. unfold mbind, M_bind. by rewrite H. Qed.

Lemma bind_raise {A B} (m : M A) (f : A → M B) st e st' :
  m st = (Raise e, st') → (m ≫= f) st = (Raise e, st').
Proof. intros H. unfold mbind, M_bind. by rewrite H. Qed.

Lemma delete_file_fs path st :
  fs (snd (delete_file path st)) = fs st ∖ {[path]}.
Proof.
  rewrite delete_file_run. cbn [snd]. case_bool_decide; cbn [fs]; set_solver.
Qed.

Lemma delete_file_returns path st :
  delete_file path st = (Ok tt, snd (delete_file path st)).
Proof. by rewrite delete_file_run. Qed.

(** The script is its page set-up, [main], and the two deletions, which
    always run because [main] returns normally. *)
Lemma script_run (w : world) (st : state) :
  script w st =
    (Ok tt,
     snd (delete_file "converted_audio.wav"
            (snd (delete_file "downloaded_audio.webm"
                    (snd (main w (opened st))))))).
Proof.
  change (script w) with
    (emit (StSetPageConfig "wide");; emit (StMarkdown page_style);;
     main w;; delete_file "downloaded_audio.webm";;
     delete_file "converted_audio.wav").
  rewrite (bind_ok _ _ st tt (log (StSetPageConfig "wide") st)) by done.
  rewrite (bind_ok _ _ _ tt
             (log (StMarkdown page_style) (log (StSetPageConfig "wide") st)))
    by done.
  replace (log (StMarkdown page_style) (log (StSetPageConfig "wide") st))
    with (opened st)
    by (unfold opened, log; cbn [fs trace reads]; by rewrite <- app_assoc).
  pose proof (main_total w (opened st)) as Hmain.
  destruct (main w (opened st)) as [[[]|e] st1] eqn:Hrun; [|discriminate].
  rewrite (bind_ok _ _ _ tt st1 Hrun).
  rewrite bind_delete_file. cbn [snd]. apply delete_file_returns.
Qed.

Section Keeps.

Context {A B : Type} (path : string).

Lemma keeps_ret (a : A) : fs_keeps path (mret a).
Proof. by intros st. Qed.

Lemma keeps_raise (e : exn) : fs_keeps path (@raise A e).
Proof. by intros st. Qed.

Lemma keeps_lift (r : outcome A) : fs_keeps path (lift r).
Proof. by intros st. Qed.

Lemma keeps_emit (e : event) : fs_keeps path (emit e).
Proof. by intros st. Qed.

Lemma keeps_call (e : event) (r : outcome A) : fs_keeps path (call e r).
Proof. by intros st. Qed.

Lemma keeps_bind (m : M A) (f : A → M B) :
  fs_keeps path m → (∀ a, fs_keeps path (f a)) → fs_keeps path (m ≫= f).
Proof.
  intros Hm Hf st Hin. unfold mbind, M_bind.
  specialize (Hm st Hin). destruct (m st) as [[a|e] st1]; cbn [snd] in *.
  - by apply Hf.
  - done.
Qed.

Lemma keeps_try_except (body : M A) (handler : exn → M A) :
  fs_keeps path body → (∀ e, fs_keeps path (handler e)) →
  fs_keeps path (try_except body handler).
Proof.
  intros Hb Hh st Hin. unfold try_except.
  specialize (Hb st Hin). destruct (body st) as [[a|e] st1]; cbn [snd] in *.
  - done.
  - by apply Hh.
Qed.

End Keeps.

Lemma keeps_write_files path files : fs_keeps path (write_files files).
Proof. intros st Hin. cbn. set_solver. Qed.

Lemma keeps_os_path_exists path p : fs_keeps path (os_path_exists p).
Proof. by intros st. Qed.

Lemma keeps_os_remove path p : path ≠ p → fs_keeps path (os_remove p).
Proof.
  intros Hne st Hin. unfold os_remove. case_bool_decide; cbn [snd fs log]; set_solver.
Qed.

Lemma keeps_time_time path w : fs_keeps path (time_time w).
Proof. by intros st. Qed.

Lemma keeps_delete_file path p : path ≠ p → fs_keeps path (delete_file p).
Proof. intros Hne st Hin. rewrite delete_file_fs. set_solver. Qed.

Ltac keeps_step :=
  lazymatch goal with
  | |- fs_keeps _ (mret _) => apply keeps_ret
  | |- fs_keeps _ (raise _) => apply keeps_raise
  | |- fs_keeps _ (lift _) => apply keeps_lift
  | |- fs_keeps _ (emit _) => apply keeps_emit
  | |- fs_keeps _ (call _ _) => apply keeps_call
  | |- fs_keeps _ (write_files _) => apply keeps_write_files
  | |- fs_keeps _ (os_path_exists _) => apply keeps_os_path_exists
  | |- fs_keeps _ (time_time _) => apply keeps_time_time
  | |- fs_keeps _ (try_except _ _) => apply keeps_try_except; [|intros ?]
  | |- fs_keeps _ (mbind _ _) => apply keeps_bind; [|intros ?]
  | |- fs_keeps _ (if ?b then _ else _) => destruct b
  | |- fs_keeps _ (match ?x with _ => _ end) => destruct x
  end.

Section KeepsScript.

Context (w : world) (path : string).

Lemma keeps_download_video url : fs_keeps path (download_video w url).
Proof. unfold download_video. repeat keeps_step. Qed.

Lemma keeps_initialize_model : fs_keeps path (initialize_model w).
Proof. unfold initialize_model. repeat keeps_step. Qed.

Lemma keeps_summarize_text text model : fs_keeps path (summarize_text w text model).
Proof. unfold summarize_text. repeat keeps_step. Qed.

Lemma keeps_transcribe_audio file_path : fs_keeps path (transcribe_audio w file_path).
Proof.
  unfold transcribe_audio, convert_audio, subprocess_run_. repeat keeps_step.
Qed.

Lemma keeps_render_result url summary elapsed :
  fs_keeps path (render_result url summary elapsed).
Proof. unfold render_result. repeat keeps_step. Qed.

Lemma keeps_cleanup_files : path ∉ candidates → fs_keeps path cleanup_files.
Proof.
  intros Hp st Hin. rewrite cleanup_files_fs. unfold candidates in Hp. set_solver.
Qed.

(** What follows the download in [pipeline]. *)
Lemma keeps_pipeline url t0 : path ∉ candidates → fs_keeps path (pipeline w url t0).
Proof.
  intros Hp. unfold pipeline.
  repeat first
    [ keeps_step
    | apply keeps_download_video
    | apply keeps_initialize_model
    | apply keeps_transcribe_audio
    | apply keeps_summarize_text
    | apply keeps_render_result
    | by apply keeps_cleanup_files ].
Qed.

Lemma keeps_main : path ∉ candidates → fs_keeps path (main w).
Proof.
  intros Hp. unfold main, set_background, st_text_input, st_button.
  repeat first [ keeps_step | by apply keeps_pipeline ].
Qed.

Lemma keeps_script : path ∉ candidates → fs_keeps path (script w).
Proof.
  intros Hp st Hin. rewrite script_run. cbn [snd].
  rewrite !delete_file_fs. pose proof (keeps_main Hp (opened st) Hin).
  unfold candidates in Hp. set_solver.
Qed.

End KeepsScript.

(** **** X1. The script never ends in an exception: whatever the
    downloader, the conversion, the speech model or the language model
    do, it returns normally, and when it has ended neither
    ["converted_audio.wav"] nor ["downloaded_audio.webm"] exists. *)
Theorem script_ends_normally_without_wav_and_webm (w : world) (st : state) :
  fst (script w st) = Ok tt ∧
  ("converted_audio.wav" ∉ fs (snd (script w st))) ∧
  ("downloaded_audio.webm" ∉ fs (snd (script w st))).
Proof.
  rewrite script_run. cbn [fst snd]. rewrite !delete_file_fs.
  split; [done|]. split; set_solver.
Qed.

(** **** X2. The script deletes nothing but its three candidate files:
    a file of any other name that exists when the script starts still
    exists when it ends, on every path through the run. *)
Theorem script_deletes_only_candidates (w : world) (st : state) (path : string) :
  path ∉ candidates →
  path ∈ fs st →
  path ∈ fs (snd (script w st)).
Proof. intros Hp Hin. by apply keeps_script. Qed.

(** A user's own file survives a complete run. *)
Lemma script_deletes_only_candidates_witness :
  "notes.txt" ∈ fs (snd (script world_ok (initial {["notes.txt"]}))).
Proof.
  apply (script_deletes_only_candidates world_ok (initial {["notes.txt"]})
           "notes.txt").
  - unfold candidates. set_solver.
  - cbn [fs initial]. set_solver.
Defined.

Lemma pipeline_keeps_download (w : world) url t0 st info :
  extract_info w url = Ok info →
  prepare_filename ydl_opts info ∉ candidates →
  prepare_filename ydl_opts info ∈ fs (snd (pipeline w url t0 st)).
Proof.
  intros Hinfo Hp. unfold pipeline.
  rewrite (bind_ok _ _ st tt (log (StSuccess "✅ Downloading Audio...") st))
    by done.
  rewrite (bind_ok _ _ _ _ _ (download_video_ok w url _ info Hinfo)).
  lazymatch goal with
  | |- ?p ∈ fs (snd (?m ?s)) => assert (fs_keeps p m) as Hk
  end.
  { repeat first
      [ keeps_step
      | apply keeps_initialize_model
      | apply keeps_transcribe_audio
      | apply keeps_summarize_text
      | apply keeps_render_result
      | by apply keeps_cleanup_files ]. }
  apply Hk. cbn [fs]. set_solver.
Qed.

(** **** X3. A download whose name is none of the three candidates (an
    m4a or opus stream, say) is never removed: once the download has
    succeeded the file is still there when the script ends, whether the
    run reached its summary, returned early or failed. *)
Theorem other_download_is_left_behind (w : world) (st : state) (info : info_dict) :
  button_clicked w && str_truthy (text_input_value w) = true →
  extract_info w (text_input_value w) = Ok info →
  prepare_filename ydl_opts info ∉ candidates →
  prepare_filename ydl_opts info ∈ fs (snd (script w st)).
Proof.
  intros Hgo Hinfo Hp. rewrite script_run. cbn [snd]. rewrite !delete_file_fs.
  assert (prepare_filename ydl_opts info ∈ fs (snd (main w (opened st)))) as Hin.
  { rewrite (main_run w (opened st) Hgo). unfold try_except.
    pose proof (pipeline_keeps_download w (text_input_value w)
                  (clock w (reads (opened st))) (entered w (opened st))
                  info Hinfo Hp) as Hkeep.
    by destruct (pipeline w _ _ _) as [[[]|e] st1]. }
  unfold candidates in Hp. set_solver.
Qed.

(** The m4a download outlives a successful run. *)
Lemma other_download_is_left_behind_witness :
  "downloaded_audio.m4a" ∈ fs (snd (script world_m4a (initial ∅))).
Proof.
  apply (other_download_is_left_behind world_m4a (initial ∅) (InfoDict "m4a")
           eq_refl eq_refl).
  unfold candidates. cbn. set_solver.
Defined.

(** **** X4. When a run reaches Done, what is left on disk when the
    script ends is what the summarisation step left, less the three
    candidate files: [cleanup_files] and the two closing deletions
    together remove the mp3, the wav and the webm file. *)
Theorem done_run_removes_candidates (w : world) (st : state)
    (summary : option string) (st4 : state) :
  button_clicked w && str_truthy (text_input_value w) = true →
  summarized w (text_input_value w) (entered w (opened st)) summary st4 →
  fs (snd (script w st)) = fs st4 ∖ candidates.
Proof.
  intros Hgo Hsum. rewrite script_run. cbn [snd]. rewrite !delete_file_fs.
  rewrite (done_path_cleans w (opened st) summary st4 Hgo Hsum).
  unfold candidates. set_solver.
Qed.

Lemma world_ok_sample_run :
  summarized world_ok sample_url (entered world_ok (opened (initial ∅)))
    (Some "The first video on YouTube.")
    (sample_run world_ok (opened (initial ∅))).
Proof.
  exists "llama3.2:latest", " All right, so here we are.". eexists. split.
  - exists "downloaded_audio.webm". eexists. split; [|split].
    + eexists. split; [|split]; [vm_compute; reflexivity..|reflexivity].
    + vm_compute; reflexivity.
    + reflexivity.
  - vm_compute; reflexivity.
Defined.

(** The complete run of the good world leaves an empty directory. *)
Lemma done_run_removes_candidates_witness :
  fs (snd (script world_ok (initial ∅))) =
    fs (sample_run world_ok (opened (initial ∅))) ∖ candidates.
Proof.
  exact (done_run_removes_candidates world_ok (initial ∅) _ _ eq_refl
           world_ok_sample_run).
Defined.

(** * Further paths through the run *)

(** **** X5. Without a click, or with an empty URL field, [main] only
    draws the page: no clock reading, no external call, the filesystem
    untouched.  In every run, a download is requested only after a click,
    for the URL that was entered, which is then not empty, and with the
    fixed options. *)
Theorem download_only_on_request (w : world) (st : state) :
  (button_clicked w = false ∨ text_input_value w = "" →
   main w st = (Ok tt, State (fs st) (trace st ++ page) (reads st))) ∧
  ∃ delta,
    trace (snd (main w st)) = trace st ++ delta ∧
    ∀ opts url,
      YdlExtractInfo opts url ∈ delta →
      button_clicked w = true ∧ url = text_input_value w ∧ url ≠ "" ∧
      opts = ydl_opts.
Proof.
  split.
  - intros Hidle. apply main_idle.
    destruct Hidle as [->| ->]; [done|]. by rewrite andb_false_r.
  - cut (emits (λ ev, ∀ opts url, ev = YdlExtractInfo opts url →
                  button_clicked w = true ∧ url = text_input_value w ∧
                  url ≠ "" ∧ opts = ydl_opts) (main w)).
    { intros Hemits. destruct (Hemits st) as (delta & Ht & HP).
      exists delta. split; [done|]. intros opts url Hin.
      exact (proj1 (Forall_forall _ _) HP _ Hin opts url eq_refl). }
    unfold main, pipeline, set_background, st_text_input, st_button.
    emits_script; intros;
      match goal with Heq : _ = YdlExtractInfo _ _ |- _ =>
        try discriminate Heq; injection Heq as <- <-
      end.
    repeat match goal with
           | H : (emit _ ≫= λ _, mret _) _ = (Ok _, _) |- _ =>
               injection H as <- _
           end.
    match goal with H : _ && _ = true |- _ =>
      apply andb_true_iff in H as [-> Hurl]
    end.
    by apply str_truthy_spec in Hurl.
Qed.

(** Pressing the button on an empty field draws the page and stops. *)
Lemma download_only_on_request_witness :
  main world_no_url (initial ∅) = (Ok tt, State ∅ ([] ++ page) 0).
Proof.
  apply (proj1 (download_only_on_request world_no_url (initial ∅))).
  by right.
Defined.

(** **** X6. When the download raises, the exception reaches the
    handler of [main]: the run consists of the clock reading, the
    announcement, the download request and the error message with the
    text of the exception.  The language model is not contacted, nothing
    is written or deleted, and [main] returns normally. *)
Theorem download_failure_ends_run (w : world) (st : state) (e : exn) :
  button_clicked w && str_truthy (text_input_value w) = true →
  extract_info w (text_input_value w) = Raise e →
  main w st =
    (Ok tt,
     State (fs st)
           (trace st ++ page ++
              [TimeTime (clock w (reads st));
               StSuccess "✅ Downloading Audio...";
               YdlExtractInfo ydl_opts (text_input_value w);
               StError ("❌ Error: " +:+ exn_str e)])
           (S (reads st))).
Proof.
  intros Hgo Hinfo.
  rewrite (main_caught w st _ _ Hgo
             (pipeline_download_raise w _ _ _ _ _
                (download_video_raise w _ _ _ Hinfo))).
  unfold log, entered, tick, report. cbn [fs trace reads].
  by rewrite <- !app_assoc.
Qed.

(** Without a network the run ends on the downloader's message. *)
Lemma download_failure_ends_run_witness :
  main world_offline (initial ∅) =
    (Ok tt,
     State ∅
           ([] ++ page ++
              [TimeTime 100.5%float;
               StSuccess "✅ Downloading Audio...";
               YdlExtractInfo ydl_opts sample_url;
               StError ("❌ Error: " +:+ "ERROR: Unable to download webpage")])
           1).
Proof.
  exact (download_failure_ends_run world_offline (initial ∅)
           (Exn "DownloadError" "ERROR: Unable to download webpage")
           eq_refl eq_refl).
Defined.

(** **** X7. [initialize_model] gives [None] exactly when the greeting
    call raises.  Any response at all, even an empty or a null one,
    counts as success and gives the fixed model name; only the
    confirmation message depends on the response being truthy. *)
Theorem initialize_model_fails_only_on_exception (w : world) (st : state) :
  (fst (initialize_model w st) = Ok None ↔
   ∃ e, chat w "llama3.2:latest" greeting = Raise e) ∧
  (∀ response,
     chat w "llama3.2:latest" greeting = Ok response →
     fst (initialize_model w st) = Ok (Some "llama3.2:latest") ∧
     trace (snd (initialize_model w st)) =
       trace st ++ OllamaChat "llama3.2:latest" greeting ::
         (if py_truthy response
          then [StSuccess "✅ Model loaded successfully!"] else [])).
Proof.
  split.
  - destruct (chat w "llama3.2:latest" greeting) as [response|e] eqn:H.
    + rewrite (initialize_model_ok w st response H). cbn [fst].
      split; [discriminate | by intros [? ?]].
    + rewrite (initialize_model_raise w st e H). cbn [fst]. split; eauto.
  - intros response H. by rewrite (initialize_model_ok w st response H).
Qed.

(** A null answer to the greeting still initialises the model. *)
Lemma initialize_model_fails_only_on_exception_witness :
  fst (initialize_model (with_chat (λ _ _, Ok PyNone) world_ok) (initial ∅))
    = Ok (Some "llama3.2:latest") ∧
  trace (snd (initialize_model (with_chat (λ _ _, Ok PyNone) world_ok)
                (initial ∅)))
    = [] ++ OllamaChat "llama3.2:latest" greeting ::
        (if py_truthy PyNone
         then [StSuccess "✅ Model loaded successfully!"] else []).
Proof.
  exact (proj2 (initialize_model_fails_only_on_exception
                  (with_chat (λ _ _, Ok PyNone) world_ok) (initial ∅))
           PyNone eq_refl).
Defined.

(** **** X8. A response of the wrong shape does not break
    [summarize_text]: when the response is no dictionary, when its
    message is no dictionary, or when the content is no string (a null
    content, for one), the attribute error is caught, shown to the user
    and [None] is returned. *)
Theorem summarize_text_on_malformed_response (w : world) (text model : string)
    (st : state) (response : pyval) :
  chat w model (summarize_prompt text) = Ok response →
  let failed (v : pyval) (attr : string) :=
    summarize_text w text model st =
      (Ok None,
       State (fs st)
             (trace st ++
                [OllamaChat model (summarize_prompt text);
                 StError ("❌ Failed to summarize: '" +:+ py_type_name v +:+
                          "' object has no attribute '" +:+ attr +:+ "'")])
             (reads st)) in
  ((∀ d, response ≠ PyDict d) → failed response "get") ∧
  (∀ d msg,
     response = PyDict d → d !! "message" = Some msg →
     (∀ m, msg ≠ PyDict m) → failed msg "get") ∧
  (∀ d m body,
     response = PyDict d → d !! "message" = Some (PyDict m) →
     m !! "content" = Some body →
     (∀ s, body ≠ PyStr s) → failed body "strip").
Proof.
  intros H. cbv zeta. split; [|split].
  - intros Hnd. step. rewrite H.
    destruct response; try (by exfalso; eapply Hnd);
      cbn [py_get py_strip from_option id attribute_error exn_str py_type_name];
      run.
  - intros d msg -> Hmsg Hnd. step. rewrite H. cbn [py_get]. rewrite Hmsg.
    cbn [from_option id].
    destruct msg; try (by exfalso; eapply Hnd);
      cbn [py_get py_strip from_option id attribute_error exn_str py_type_name];
      run.
  - intros d m body -> Hmsg Hbody Hns. step. rewrite H. cbn [py_get].
    rewrite Hmsg. cbn [from_option id py_get]. rewrite Hbody.
    cbn [from_option id].
    destruct body; try (by exfalso; eapply Hns);
      cbn [py_get py_strip from_option id attribute_error exn_str py_type_name];
      run.
Qed.

(** A null content is reported as an attribute error. *)
Lemma summarize_text_on_malformed_response_witness :
  summarize_text world_null_content " All right, so here we are."
      "llama3.2:latest" (initial ∅)
    = (Ok None,
       State ∅
             ([] ++
                [OllamaChat "llama3.2:latest"
                   (summarize_prompt " All right, so here we are.");
                 StError ("❌ Failed to summarize: '" +:+ py_type_name PyNone +:+
                          "' object has no attribute '" +:+ "strip" +:+ "'")])
             0).
Proof.
  refine (proj2 (proj2 (summarize_text_on_malformed_response world_null_content
                          " All right, so here we are." "llama3.2:latest"
                          (initial ∅) _ eq_refl))
            _ {[ "role" := PyStr "assistant"; "content" := PyNone ]} PyNone
            eq_refl _ _ _).
  - vm_compute. reflexivity.
  - vm_compute. reflexivity.
  - discriminate.
Defined.

(** * Blank answers *)

Lemma app_eq_prefix (c c' x y : list ascii) :
  c ++ x = c' ++ y → (∃ z, c' = c ++ z) ∨ (∃ z, c = c' ++ z).
Proof.
  revert c'. induction c as [|a c IH]; intros c' Heq.
  - left. by exists c'.
  - destruct c' as [|a' c']; [right; by exists (a :: c)|].
    injection Heq as -> Heq.
    destruct (IH c' Heq) as [[z ->]|[z ->]]; [left | right]; by exists z.
Qed.

Lemma prefix_free_spec pats c c' z :
  prefix_free pats = true → c ∈ pats → c' ∈ pats → c' = c ++ z → z = [].
Proof.
  intros Hfree Hc Hc' Heq. unfold prefix_free in Hfree.
  apply list_elem_of_In in Hc, Hc'.
  pose proof (proj1 (forallb_forall _ _) (proj1 (forallb_forall _ _) Hfree c Hc)
                c' Hc') as Hcheck.
  cbv beta in Hcheck. apply drop_prefix_spec in Heq. rewrite Heq in Hcheck.
  by destruct z.
Qed.

Lemma prefix_free_head pats c c' x y :
  prefix_free pats = true → c ∈ pats → c' ∈ pats →
  c ++ x = c' ++ y → c = c' ∧ x = y.
Proof.
  intros Hfree Hc Hc' Heq.
  assert (c = c') as <-.
  { destruct (app_eq_prefix _ _ _ _ Heq) as [[z Hz]|[z Hz]].
    - rewrite (prefix_free_spec pats c c' z Hfree Hc Hc' Hz) in Hz.
      by rewrite app_nil_r in Hz.
    - rewrite (prefix_free_spec pats c' c z Hfree Hc' Hc Hz) in Hz.
      by rewrite app_nil_r in Hz. }
  split; [done|]. by apply app_inv_head in Heq.
Qed.

Lemma drop_while_made_of pats s :
  prefix_free pats = true →
  Forall (λ c, c ≠ []) pats →
  made_of pats s →
  ∀ fuel, length s ≤ fuel → drop_while pats fuel s = [].
Proof.
  intros Hfree Hne. induction 1 as [|c s Hc Hs IH]; intros fuel Hlen.
  - destruct fuel; [done|]. cbn.
    destruct (drop_one pats []) as [r|] eqn:Hd; [|done].
    apply drop_one_Some in Hd as (c & Hc & Heq).
    symmetry in Heq. apply app_eq_nil in Heq as [-> _].
    by eapply Forall_forall in Hne.
  - assert (c ≠ []) as Hc' by by eapply Forall_forall in Hne.
    rewrite length_app in Hlen.
    destruct fuel as [|fuel]; [destruct c; [done | cbn in Hlen; lia]|].
    cbn. destruct (drop_one pats (c ++ s)) as [r|] eqn:Hd.
    + apply drop_one_Some in Hd as (c0 & Hc0 & Heq).
      destruct (prefix_free_head pats c c0 s r Hfree Hc Hc0 Heq) as [_ <-].
      apply IH. destruct c; [done | cbn in Hlen; lia].
    + by destruct (drop_one_None pats (c ++ s) c s Hd Hc).
Qed.

(** A string of whitespace only strips to the empty string. *)
Lemma strip_blank s : blank (list_ascii_of_string s) → strip s = "".
Proof.
  intros Hblank. unfold strip, lstrip_bytes.
  rewrite (drop_while_made_of whitespace _ eq_refl whitespace_nonempty Hblank)
    by done.
  reflexivity.
Qed.

(** **** X9. An answer of the language model that consists of
    whitespace only is treated like no answer: [summarize_text] returns
    the empty string, and the result page then shows the failure message
    instead of a summary. *)
Theorem blank_summary_is_failure (w : world) (text model : string) (st : state)
    (d m : gmap string pyval) (c : string) :
  chat w model (summarize_prompt text) = Ok (PyDict d) →
  d !! "message" = Some (PyDict m) →
  m !! "content" = Some (PyStr c) →
  blank (list_ascii_of_string c) →
  summarize_text w text model st =
    (Ok (Some ""), log (OllamaChat model (summarize_prompt text)) st) ∧
  ∀ url elapsed st',
    render_result url (Some (strip c)) elapsed st' =
      (Ok tt,
       State (fs st')
             (trace st' ++ [StColumns [1; 1]; StVideo url; StHeader "📜 Summary";
                            StError "❌ Summary generation failed."])
             (reads st')).
Proof.
  intros H Hd Hm Hblank. split.
  - rewrite (summarize_text_content w text model st d m c H Hd Hm).
    by rewrite (strip_blank c Hblank).
  - intros url elapsed st'. rewrite (strip_blank c Hblank).
    destruct (render_result_run url (Some "") elapsed st')
      as (delta & -> & Hfail & _).
    by rewrite (Hfail (or_intror eq_refl)).
Qed.

(** Two spaces and a line feed make no summary. *)
Lemma blank_summary_is_failure_witness :
  summarize_text world_blank_reply " All right, so here we are."
      "llama3.2:latest" (initial ∅)
    = (Ok (Some ""),
       log (OllamaChat "llama3.2:latest"
              (summarize_prompt " All right, so here we are.")) (initial ∅)).
Proof.
  refine (proj1 (blank_summary_is_failure world_blank_reply _ _ (initial ∅)
                   {[ "model" := PyStr "llama3.2:latest";
                      "message" :=
                        PyDict {[ "role" := PyStr "assistant";
                                  "content" := PyStr ("  " +:+ newline) ]};
                      "done" := PyBool true ]}
                   {[ "role" := PyStr "assistant";
                      "content" := PyStr ("  " +:+ newline) ]}
                   ("  " +:+ newline) _ _ _ _)).
  - vm_compute. reflexivity.
  - vm_compute. reflexivity.
  - vm_compute. reflexivity.
  - change (blank (bytes [32] ++ bytes [32] ++ bytes [10] ++ [])).
    repeat (apply made_cons; [vm_compute; set_solver|]). apply made_nil.
Defined.

(** * The speech model *)

(** **** X10. An exception raised on the way through
    [transcribe_audio] leaves it unchanged and at once.  When the
    conversion executable cannot be run at all, nothing is shown and the
    speech model is not loaded; when loading the speech model raises,
    nothing is transcribed; when the transcription raises, neither the
    completion nor the failure message is shown. *)
Theorem transcribe_audio_lets_exceptions_through (w : world)
    (file_path : string) (st : state) (e : exn) :
  (endswith file_path ".wav" = false →
   subprocess_run w (ffmpeg_command file_path "converted_audio.wav") = Raise e →
   transcribe_audio w file_path st =
     (Raise e,
      State (fs st ∪ subprocess_files w
                       (ffmpeg_command file_path "converted_audio.wav"))
            (trace st ++
               [StSuccess "✅ Transcribing Audio Using Whisper...";
                SubprocessRun (ffmpeg_command file_path "converted_audio.wav")])
            (reads st))) ∧
  (∀ p1 st1,
     resolved w file_path st p1 st1 →
     load_model w "small" = Raise e →
     transcribe_audio w file_path st =
       (Raise e,
        State (fs st1) (trace st1 ++ [WhisperLoadModel "small"]) (reads st1))) ∧
  (∀ p1 st1 u,
     resolved w file_path st p1 st1 →
     load_model w "small" = Ok u →
     transcribe w p1 = Raise e →
     transcribe_audio w file_path st =
       (Raise e,
        State (fs st1)
              (trace st1 ++ [WhisperLoadModel "small"; WhisperTranscribe p1])
              (reads st1))).
Proof.
  split; [|split].
  - intros Hext Hsub.
    rewrite (transcribe_audio_convert_raise w file_path st _ _ Hext
               (convert_audio_raise w _ _ _ Hsub)).
    cbn [log fs trace reads]. by flat.
  - intros p1 st1 Hres Hload. unfold transcribe_audio.
    cbv beta iota zeta delta [mbind M_bind emit negb].
    destruct Hres as [(Hext & -> & ->)|(Hext & Hconv)]; rewrite Hext, ?Hconv;
      step; rewrite Hload; run.
  - intros p1 st1 u Hres Hload Hrun. unfold transcribe_audio.
    cbv beta iota zeta delta [mbind M_bind emit negb].
    destruct Hres as [(Hext & -> & ->)|(Hext & Hconv)]; rewrite Hext, ?Hconv;
      step; rewrite Hload, Hrun; run.
Qed.

(** A speech model that does not load, on a waveform download. *)
Lemma transcribe_audio_lets_exceptions_through_witness :
  transcribe_audio world_no_whisper "downloaded_audio.wav" (initial ∅)
    = (Raise (Exn "RuntimeError" "CUDA out of memory"),
       State ∅
             ([StSuccess "✅ Transcribing Audio Using Whisper..."]
                ++ [WhisperLoadModel "small"])
             0).
Proof.
  refine (proj1 (proj2 (transcribe_audio_lets_exceptions_through
                          world_no_whisper "downloaded_audio.wav" (initial ∅)
                          (Exn "RuntimeError" "CUDA out of memory")))
            "downloaded_audio.wav"
            (log (StSuccess "✅ Transcribing Audio Using Whisper...") (initial ∅))
            _ eq_refl).
  left. repeat split; reflexivity.
Defined.

(** When [convert_audio] returns, it returns its fixed output path. *)
Lemma convert_audio_path w input_path st path st' :
  convert_audio w input_path st = (Ok path, st') → path = "converted_audio.wav".
Proof.
  destruct (subprocess_run w (ffmpeg_command input_path "converted_audio.wav"))
    as [cp|e] eqn:Hsub;
    [destruct (Z.eq_dec (returncode cp) 0%Z) as [Hrc|Hrc]|].
  - rewrite (convert_audio_ok w _ _ _ Hsub Hrc). by intros [= <- _].
  - by rewrite (convert_audio_failed w _ _ _ Hsub Hrc).
  - by rewrite (convert_audio_raise w _ _ _ Hsub).
Qed.

Lemma transcribe_audio_wav_only (w : world) (file_path : string) :
  emits (λ ev, ∀ path, ev = WhisperTranscribe path →
                 endswith path ".wav" = true ∧
                 (path = file_path ∨ path = "converted_audio.wav"))
        (transcribe_audio w file_path).
Proof.
  rewrite transcribe_audio_split.
  apply emits_bind; [by apply emits_emit|intros _ _ _ _].
  apply emits_bind.
  - destruct (negb (endswith file_path ".wav"));
      [apply convert_audio_emits; intros; discriminate | apply emits_ret].
  - intros path st st' Hpath.
    assert (endswith path ".wav" = true ∧
            (path = file_path ∨ path = "converted_audio.wav")) as Hwav.
    { destruct (endswith file_path ".wav") eqn:Hext; cbn [negb] in Hpath.
      - injection Hpath as <- _. eauto.
      - apply convert_audio_path in Hpath as ->. eauto. }
    unfold recognize. emits_go; intros ? [=]. by subst.
Qed.

Lemma transcribe_audio_from_download (w : world) url st0 path st0' :
  download_video w url st0 = (Ok path, st0') →
  emits (λ ev, ∀ p, ev = WhisperTranscribe p →
                 endswith p ".wav" = true ∧
                 (p = "converted_audio.wav" ∨
                  ∃ url st0 st0', download_video w url st0 = (Ok p, st0')))
        (transcribe_audio w path).
Proof.
  intros Hdl st1.
  destruct (transcribe_audio_wav_only w path st1) as (delta & Ht & HP).
  exists delta. split; [exact Ht|].
  eapply Forall_impl; [exact HP|].
  intros ev Hev p Heq. cbv beta in Hev.
  destruct (Hev p Heq) as (Hwav & [->| ->]); split; eauto 10.
Qed.

(** **** X11. The speech model is only ever handed a path that ends in
    [".wav"]: in every run, the path of a transcription request is either
    the downloaded file, when that is a waveform file already, or the
    fixed output of the conversion. *)
Theorem speech_model_gets_wav_only (w : world) (st : state) :
  ∃ delta,
    trace (snd (main w st)) = trace st ++ delta ∧
    ∀ path,
      WhisperTranscribe path ∈ delta →
      endswith path ".wav" = true ∧
      (path = "converted_audio.wav" ∨
       ∃ url st0 st0', download_video w url st0 = (Ok path, st0')).
Proof.
  cut (emits (λ ev, ∀ path, ev = WhisperTranscribe path →
                endswith path ".wav" = true ∧
                (path = "converted_audio.wav" ∨
                 ∃ url st0 st0', download_video w url st0 = (Ok path, st0')))
             (main w)).
  { intros Hemits. destruct (Hemits st) as (delta & Ht & HP).
    exists delta. split; [done|]. intros path Hin.
    exact (proj1 (Forall_forall _ _) HP _ Hin path eq_refl). }
  unfold main, pipeline, set_background, st_text_input, st_button.
  repeat first
    [ emits_step
    | apply download_video_emits
    | apply initialize_model_emits
    | apply summarize_text_emits
    | apply render_result_emits
    | apply cleanup_files_emits
    | match goal with
      | H : download_video w _ _ = (Ok ?p, _)
        |- emits _ (transcribe_audio w ?p) =>
          apply (transcribe_audio_from_download w _ _ _ _ H)
      end ];
    intros;
    match goal with Heq : _ = WhisperTranscribe _ |- _ => discriminate Heq end.
Qed.

(** * The order of the stages *)

Lemma sorted_app_precedes (l1 l2 : list nat) :
  StronglySorted precedes l1 → StronglySorted precedes l2 →
  (∀ x y, x ∈ l1 → y ∈ l2 → precedes x y) →
  StronglySorted precedes (l1 ++ l2).
Proof.
  induction 1 as [|x l1 Hs IH Hx]; intros H2 Hcross; [done|].
  cbn. constructor.
  - apply IH; [done|]. intros a b Ha Hb. apply Hcross; [by right | done].
  - apply Forall_app. split; [done|].
    apply Forall_forall. intros y Hy. apply Hcross; [by left | done].
Qed.

Section Order.

Context {A B : Type}.

(** What only shows something can stand anywhere. *)
Lemma in_order_silent lo hi (m : M A) :
  emits (λ ev, stage ev = None) m → in_order lo hi m.
Proof.
  intros Hm st. destruct (Hm st) as (delta & Ht & HP).
  exists delta. split; [done|].
  assert (omap stage delta = []) as ->; [|split; constructor].
  clear Ht. induction HP as [|ev delta Hev _ IH]; [done|].
  cbn. by rewrite Hev.
Qed.

Lemma in_order_call lo hi k (e : event) (r : outcome A) :
  stage e = Some k → lo ≤ k < hi → in_order lo hi (call e r).
Proof.
  intros He Hk st. exists [e]. split; [done|]. cbn. rewrite He.
  split; repeat constructor; lia.
Qed.

Lemma in_order_weaken lo hi lo' hi' (m : M A) :
  in_order lo hi m → lo' ≤ lo → hi ≤ hi' → in_order lo' hi' m.
Proof.
  intros Hm Hlo Hhi st. destruct (Hm st) as (delta & Ht & Hs & Hr).
  exists delta. split; [done|]. split; [done|].
  eapply Forall_impl; [exact Hr|]. intros n ?. cbv beta in *. lia.
Qed.

(** First [m], in stages below [mid]; then [f], from [mid] on. *)
Lemma in_order_bind lo mid hi (m : M A) (f : A → M B) :
  in_order lo mid m → (∀ a, in_order mid hi (f a)) → lo ≤ mid ≤ hi →
  in_order lo hi (m ≫= f).
Proof.
  intros Hm Hf Hmid st. unfold mbind, M_bind.
  destruct (Hm st) as (d1 & Ht1 & Hs1 & Hr1).
  destruct (m st) as [[a|e] st1]; cbn [snd] in *.
  - destruct (Hf a st1) as (d2 & Ht2 & Hs2 & Hr2).
    exists (d1 ++ d2). split; [by rewrite Ht2, Ht1, app_assoc|].
    rewrite omap_app. split.
    + apply sorted_app_precedes; [done..|]. intros x y Hx Hy. left.
      pose proof (proj1 (Forall_forall _ _) Hr1 x Hx).
      pose proof (proj1 (Forall_forall _ _) Hr2 y Hy). cbv beta in *. lia.
    + apply Forall_app. split; (eapply Forall_impl; [eassumption|]);
        intros n ?; cbv beta in *; lia.
  - exists d1. split; [done|]. split; [done|].
    eapply Forall_impl; [exact Hr1|]. intros n ?. cbv beta in *. lia.
Qed.

Lemma in_order_try_except lo mid hi (body : M A) (handler : exn → M A) :
  in_order lo mid body → (∀ e, in_order mid hi (handler e)) → lo ≤ mid ≤ hi →
  in_order lo hi (try_except body handler).
Proof.
  intros Hb Hh Hmid st. unfold try_except.
  destruct (Hb st) as (d1 & Ht1 & Hs1 & Hr1).
  destruct (body st) as [[a|e] st1]; cbn [snd] in *.
  - exists d1. split; [done|]. split; [done|].
    eapply Forall_impl; [exact Hr1|]. intros n ?. cbv beta in *. lia.
  - destruct (Hh e st1) as (d2 & Ht2 & Hs2 & Hr2).
    exists (d1 ++ d2). split; [by rewrite Ht2, Ht1, app_assoc|].
    rewrite omap_app. split.
    + apply sorted_app_precedes; [done..|]. intros x y Hx Hy. left.
      pose proof (proj1 (Forall_forall _ _) Hr1 x Hx).
      pose proof (proj1 (Forall_forall _ _) Hr2 y Hy). cbv beta in *. lia.
    + apply Forall_app. split; (eapply Forall_impl; [eassumption|]);
        intros n ?; cbv beta in *; lia.
Qed.

(** Deletions may follow anything, other deletions too. *)
Lemma in_order_deletions lo (m : M A) (f : A → M B) :
  in_order lo 8 m → (∀ a, in_order 7 8 (f a)) → lo ≤ 7 →
  in_order lo 8 (m ≫= f).
Proof.
  intros Hm Hf Hlo st. unfold mbind, M_bind.
  destruct (Hm st) as (d1 & Ht1 & Hs1 & Hr1).
  destruct (m st) as [[a|e] st1]; cbn [snd] in *; [|by exists d1].
  destruct (Hf a st1) as (d2 & Ht2 & Hs2 & Hr2).
  exists (d1 ++ d2). split; [by rewrite Ht2, Ht1, app_assoc|].
  rewrite omap_app. split.
  - apply sorted_app_precedes; [done..|]. intros x y Hx Hy.
    pose proof (proj1 (Forall_forall _ _) Hr1 x Hx).
    pose proof (proj1 (Forall_forall _ _) Hr2 y Hy). cbv beta in *.
    unfold precedes. lia.
  - apply Forall_app. split; [done|].
    eapply Forall_impl; [exact Hr2|]. intros n ?. cbv beta in *. lia.
Qed.

End Order.

(** What shows something, and nothing else. *)
Ltac silent := apply in_order_silent; emits_go; reflexivity.

(** A call of stage [k]. *)
Ltac staged k := apply (in_order_call _ _ k); [reflexivity | lia].

Section OrderScript.

Context (w : world).

Lemma download_video_in_order url : in_order 1 2 (download_video w url).
Proof.
  unfold download_video.
  apply (in_order_bind 1 2 2); [staged 1| |lia].
  intros info. silent.
Qed.

Lemma initialize_model_in_order : in_order 2 3 (initialize_model w).
Proof.
  unfold initialize_model.
  apply (in_order_try_except 2 3 3); [| intros e; silent | lia].
  apply (in_order_bind 2 3 3); [staged 2| |lia].
  intros response. silent.
Qed.

Lemma convert_audio_in_order input_path : in_order 3 4 (convert_audio w input_path).
Proof.
  unfold convert_audio, subprocess_run_.
  apply (in_order_bind 3 4 4); [| intros cp; silent | lia].
  apply (in_order_bind 3 3 4); [silent| |lia].
  intros _. staged 3.
Qed.

Lemma transcribe_audio_in_order file_path :
  in_order 3 6 (transcribe_audio w file_path).
Proof.
  rewrite transcribe_audio_split.
  apply (in_order_bind 3 3 6); [silent| |lia]. intros _.
  apply (in_order_bind 3 4 6); [| |lia].
  - destruct (negb (endswith file_path ".wav"));
      [apply convert_audio_in_order | silent].
  - intros path. unfold recognize.
    apply (in_order_bind 4 5 6); [staged 4| |lia].
    intros _.
    apply (in_order_bind 5 6 6); [staged 5| |lia].
    intros result. silent.
Qed.

Lemma summarize_text_in_order text model :
  in_order 6 7 (summarize_text w text model).
Proof.
  unfold summarize_text.
  apply (in_order_try_except 6 7 7); [| intros e; silent | lia].
  apply (in_order_bind 6 7 7); [staged 6| |lia].
  intros response. silent.
Qed.

Lemma delete_file_in_order path : in_order 7 8 (delete_file path).
Proof.
  intros st. rewrite delete_file_run. cbn [snd].
  case_bool_decide.
  - exists [OsRemove path]. split; [done|]. cbn. split; repeat constructor.
  - exists []. split; [by rewrite app_nil_r|]. split; constructor.
Qed.

Lemma cleanup_files_in_order : in_order 7 8 cleanup_files.
Proof.
  change cleanup_files with
    (delete_file "downloaded_audio.mp3";;
     delete_file "converted_audio.wav";; mret tt).
  apply in_order_deletions; [apply delete_file_in_order| |lia]. intros _.
  apply in_order_deletions; [apply delete_file_in_order| |lia]. intros _.
  silent.
Qed.

Lemma pipeline_in_order url t0 : in_order 1 8 (pipeline w url t0).
Proof.
  unfold pipeline.
  apply (in_order_bind 1 1 8); [silent| |lia]. intros _.
  apply (in_order_bind 1 2 8); [apply download_video_in_order| |lia].
  intros file_path.
  apply (in_order_bind 2 2 8); [silent| |lia]. intros _.
  apply (in_order_bind 2 3 8); [apply initialize_model_in_order| |lia].
  intros [model|]; [|silent].
  destruct (negb (str_truthy model)); [silent|].
  apply (in_order_bind 3 3 8); [silent| |lia]. intros _.
  apply (in_order_bind 3 6 8); [apply transcribe_audio_in_order| |lia].
  intros [transcription|]; [|silent].
  destruct (negb (str_truthy transcription)); [silent|].
  apply (in_order_bind 6 6 8); [silent| |lia]. intros _.
  apply (in_order_bind 6 7 8); [apply summarize_text_in_order| |lia].
  intros summary.
  apply (in_order_bind 7 7 8); [silent| |lia]. intros end_time.
  apply (in_order_bind 7 7 8); [|intros _; apply cleanup_files_in_order|lia].
  unfold render_result. silent.
Qed.

Lemma main_in_order : in_order 1 8 (main w).
Proof.
  unfold main.
  repeat (apply (in_order_bind 1 1 8);
          [unfold set_background, st_text_input, st_button; silent| |lia];
          intros ?).
  destruct (_ && _); [|silent].
  apply (in_order_bind 1 1 8); [silent| |lia]. intros start_time.
  apply (in_order_try_except 1 8 8); [apply pipeline_in_order| |lia].
  intros e. silent.
Qed.

End OrderScript.

(** **** X12. The external calls of a run follow the stages of the
    pipeline: the download, the greeting of the language model, the
    conversion, loading the speech model, the transcription, the request
    for the summary, and the deletions, in this order.  A stage may be
    missing, none is entered twice and none is entered after a later
    one; only deletions may follow one another. *)
Theorem calls_follow_the_stages (w : world) (st : state) :
  ∃ delta,
    trace (snd (script w st)) = trace st ++ delta ∧
    StronglySorted precedes (omap stage delta).
Proof.
  cut (in_order 1 8 (script w)).
  { intros H. destruct (H st) as (delta & Ht & Hs & _). by exists delta. }
  unfold script.
  apply (in_order_bind 1 1 8); [silent| |lia]. intros _.
  apply (in_order_bind 1 1 8); [silent| |lia]. intros _.
  apply in_order_deletions; [apply main_in_order| |lia]. intros _.
  apply in_order_deletions; [apply delete_file_in_order| |lia]. intros _.
  apply delete_file_in_order.
Qed.

(** * What the engines are asked *)

Lemma emits_impl {A} (P Q : event → Prop) (m : M A) :
  emits P m → (∀ ev, P ev → Q ev) → emits Q m.
Proof.
  intros Hm Himpl st. destruct (Hm st) as (delta & Ht & HP).
  exists delta. split; [done|]. by eapply Forall_impl.
Qed.

Lemma transcribe_audio_converts_input (w : world) (file_path : string) :
  emits (λ ev, ∀ command, ev = SubprocessRun command →
                 endswith file_path ".wav" = false ∧
                 command = ["ffmpeg"; "-i"; file_path; "-ac"; "1"; "-ar"; "16000";
                            "converted_audio.wav"; "-y"])
        (transcribe_audio w file_path).
Proof.
  rewrite transcribe_audio_split.
  apply emits_bind; [by apply emits_emit|intros _ _ _ _].
  apply emits_bind.
  - destruct (endswith file_path ".wav") eqn:Hext; cbn [negb];
      [apply emits_ret|].
    apply convert_audio_emits; [|intros; discriminate].
    by intros command [= <-].
  - intros path _ _ _. unfold recognize. emits_go; intros; discriminate.
Qed.

(** **** X13. The language model is addressed under one name only: in
    every run each request goes to ["llama3.2:latest"], and it is either
    the greeting or the summarisation prompt for some text. *)
Theorem one_language_model (w : world) (st : state) :
  ∃ delta,
    trace (snd (main w st)) = trace st ++ delta ∧
    ∀ model messages,
      OllamaChat model messages ∈ delta →
      model = "llama3.2:latest" ∧
      (messages = greeting ∨ ∃ text, messages = summarize_prompt text).
Proof.
  cut (emits (λ ev, ∀ model messages, ev = OllamaChat model messages →
                model = "llama3.2:latest" ∧
                (messages = greeting ∨ ∃ text, messages = summarize_prompt text))
             (main w)).
  { intros Hemits. destruct (Hemits st) as (delta & Ht & HP).
    exists delta. split; [done|]. intros model messages Hin.
    exact (proj1 (Forall_forall _ _) HP _ Hin model messages eq_refl). }
  unfold main, pipeline, set_background, st_text_input, st_button.
  emits_script; intros;
    match goal with Heq : _ = OllamaChat _ _ |- _ =>
      try discriminate Heq; injection Heq as <- <-
    end.
  - eauto.
  - match goal with H : initialize_model w ?s = (Ok (Some ?m), _) |- _ =>
      destruct (initialize_model_result w s) as [Hr|Hr];
      rewrite H in Hr; cbn [fst] in Hr;
      [injection Hr as -> | discriminate Hr]
    end.
    eauto.
Qed.

(** **** X14. The conversion executable is only ever run on the
    downloaded file, when its name does not end in [".wav"], and always
    with the same arguments: one channel, 16000 Hz, the output
    ["converted_audio.wav"], overwriting. *)
Theorem one_conversion_command (w : world) (st : state) :
  ∃ delta,
    trace (snd (main w st)) = trace st ++ delta ∧
    ∀ command,
      SubprocessRun command ∈ delta →
      ∃ url st0 file_path st0',
        download_video w url st0 = (Ok file_path, st0') ∧
        endswith file_path ".wav" = false ∧
        command = ["ffmpeg"; "-i"; file_path; "-ac"; "1"; "-ar"; "16000";
                   "converted_audio.wav"; "-y"].
Proof.
  cut (emits (λ ev, ∀ command, ev = SubprocessRun command →
                ∃ url st0 file_path st0',
                  download_video w url st0 = (Ok file_path, st0') ∧
                  endswith file_path ".wav" = false ∧
                  command = ["ffmpeg"; "-i"; file_path; "-ac"; "1"; "-ar";
                             "16000"; "converted_audio.wav"; "-y"])
             (main w)).
  { intros Hemits. destruct (Hemits st) as (delta & Ht & HP).
    exists delta. split; [done|]. intros command Hin.
    exact (proj1 (Forall_forall _ _) HP _ Hin command eq_refl). }
  unfold main, pipeline, set_background, st_text_input, st_button.
  repeat first
    [ emits_step
    | apply download_video_emits
    | apply initialize_model_emits
    | apply summarize_text_emits
    | apply render_result_emits
    | apply cleanup_files_emits
    | match goal with
      | H : download_video w _ _ = (Ok ?p, _)
        |- emits _ (transcribe_audio w ?p) =>
          eapply emits_impl; [apply (transcribe_audio_converts_input w p)|];
          intros ev Hev command Heq; destruct (Hev command Heq); eauto 10
      end ];
    intros;
    match goal with Heq : _ = SubprocessRun _ |- _ => discriminate Heq end.
Qed.
